(** * Natural-language-to-SQL backend: sanitizer, validator, orchestrator

    A shallow embedding of [backend/ai_service.py] (class [AIService]:
    [clean_sql_response], [validate_sql], [generate_sql], the key guards
    of the adapters), of the handlers of [backend/app.py] and of
    [get_schema_description] of [backend/db.py].

    A Python [str] is a list of code points.  White space ([str.isspace],
    [str.strip], [\s]) is Python's full list of white-space characters, and
    [re.IGNORECASE] is Python's on the ASCII patterns of the source.
    [str.upper] and the class [\w] are Python's on ASCII; for the
    characters above 127 they are read from the tables of the interpreter,
    which are taken as the two functions of [Unicode]. *)

From Stdlib Require Import Ascii String DecimalString NArith List Bool Arith Lia.
Import ListNotations.

(** ** Characters and texts *)

Definition char := N.

Definition str := list char.

(** The code point of an ASCII character, and an ASCII literal (the
    literals of the source are all ASCII). *)
Definition chr (a : ascii) : char := N_of_ascii a.

Definition lit (s : string) : str := map chr (list_ascii_of_string s).

(** The tables of the interpreter for the characters above 127:
    [upper_other c] is [c.upper()], which may be several characters, and
    [isword_other c] tells whether [c] is alphanumeric, that is in [\w]. *)
Class Unicode := {
  upper_other : char -> list char;
  isword_other : char -> bool
}.

Module Py.

(** The white-space characters of Python. *)
Definition space_codes : list char :=
  [ 9; 10; 11; 12; 13; 28; 29; 30; 31; 32; 133; 160; 5760;
    8192; 8193; 8194; 8195; 8196; 8197; 8198; 8199; 8200; 8201; 8202;
    8232; 8233; 8239; 8287; 12288 ]%N.

(** [str.isspace] on one character; also the class [\s] of [re]. *)
Definition isspace (c : char) : bool := existsb (N.eqb c) space_codes.

(** The class [\w] on ASCII. *)
Definition isword_ascii (c : char) : bool :=
  (((48 <=? c) && (c <=? 57)) || ((65 <=? c) && (c <=? 90))
   || (c =? 95) || ((97 <=? c) && (c <=? 122)))%N.

(** [c.upper()] on ASCII. *)
Definition upper_ascii (c : char) : char :=
  (if (97 <=? c) && (c <=? 122) then c - 32 else c)%N.

Section Tables.

Context {U : Unicode}.

(** The class [\w] of [re]. *)
Definition isword (c : char) : bool :=
  if (c <? 128)%N then isword_ascii c else isword_other c.

(** [c.upper()] *)
Definition upper_char (c : char) : list char :=
  if (c <? 128)%N then [upper_ascii c] else upper_other c.

(** [s.upper()] *)
Definition upper (s : str) : str := flat_map upper_char s.

End Tables.

(** [s.startswith(p)] *)
Fixpoint startswith (s p : str) : bool :=
  match p, s with
  | [], _ => true
  | _ :: _, [] => false
  | a :: p', b :: s' => N.eqb a b && startswith s' p'
  end.

(** [s.endswith(c)] for a one-character suffix. *)
Fixpoint endswith_char (s : str) (c : char) : bool :=
  match s with
  | [] => false
  | [a] => N.eqb a c
  | _ :: s' => endswith_char s' c
  end.

(** [s.count(c)] for a one-character needle. *)
Fixpoint count (c : char) (s : str) : nat :=
  match s with
  | [] => 0
  | a :: s' => (if N.eqb a c then 1 else 0) + count c s'
  end.

(** [p in s] *)
Fixpoint contains (p s : str) : bool :=
  startswith s p ||
  match s with
  | [] => false
  | _ :: s' => contains p s'
  end.

(** [s.lstrip()] *)
Fixpoint lstrip (s : str) : str :=
  match s with
  | [] => []
  | c :: s' => if isspace c then lstrip s' else s
  end.

(** [s.rstrip()] *)
Fixpoint rstrip (s : str) : str :=
  match s with
  | [] => []
  | c :: s' =>
      match rstrip s' with
      | [] => if isspace c then [] else [c]
      | r => c :: r
      end
  end.

(** [s.strip()] *)
Definition strip (s : str) : str := rstrip (lstrip s).

(** [a == b] *)
Fixpoint eqb (a b : str) : bool :=
  match a, b with
  | [], [] => true
  | x :: a', y :: b' => N.eqb x y && eqb a' b'
  | _, _ => false
  end.

(** Truth value of a string: [not s] is [negb (truthy s)]. *)
Definition truthy (s : str) : bool :=
  match s with [] => false | _ => true end.

End Py.

(** ** The regular expressions of the source

    Each pattern of the source is embedded as the function that gives the
    length of its match at the start of a text, and [re.sub] / [re.search]
    are embedded once, over such functions. *)

Module Re.

(** The characters that [re.IGNORECASE] identifies with an ASCII
    character: a letter with its other case, and besides them the long s
    with s, the dotted capital I and the dotless i with i, and the Kelvin
    sign with k.  [fold] maps each to the lower-case letter. *)
Definition fold (c : char) : char :=
  (if (65 <=? c) && (c <=? 90) then c + 32
   else if c =? 383 then 115
   else if (c =? 304) || (c =? 305) then 105
   else if c =? 8490 then 107
   else c)%N.

(** A literal character [a] of an ASCII pattern matches the character [b]
    of the text under [re.IGNORECASE]. *)
Definition eq_ci (a b : char) : bool := N.eqb (fold a) (fold b).

(** The literal [p] matches at the start of [s]; [ci] is
    [re.IGNORECASE]. *)
Fixpoint lit_at (ci : bool) (p s : str) : bool :=
  match p, s with
  | [], _ => true
  | _ :: _, [] => false
  | a :: p', b :: s' =>
      (if ci then eq_ci a b else N.eqb a b) && lit_at ci p' s'
  end.

(** Length of the longest run of [\s] at the start of [s]: a greedy
    [\s*]. *)
Fixpoint spaces (s : str) : nat :=
  match s with
  | c :: s' => if Py.isspace c then S (spaces s') else 0
  | [] => 0
  end.

(** Match length of [p\s*] at the start of [s], for a literal [p]. *)
Definition lit_spaces (ci : bool) (p s : str) : option nat :=
  if lit_at ci p s
  then Some (length p + spaces (skipn (length p) s))
  else None.

(** Match length of an escaped literal [re.escape(p)]. *)
Definition lit_only (ci : bool) (p s : str) : option nat :=
  if lit_at ci p s then Some (length p) else None.

(** [re.sub(pattern, '', s)]: the text is scanned from the left; where
    the pattern matches [S n] characters they are dropped and the scan
    resumes behind them, elsewhere the character is kept.  [skip] counts
    the characters of the current match that are still to be dropped.
    (No pattern of the source matches the empty string.) *)
Fixpoint sub_go (m : str -> option nat) (skip : nat) (s : str) : str :=
  match s with
  | [] => []
  | c :: s' =>
      match skip with
      | S k => sub_go m k s'
      | O =>
          match m s with
          | Some (S k) => sub_go m k s'
          | _ => c :: sub_go m 0 s'
          end
      end
  end.

Definition sub (m : str -> option nat) (s : str) : str := sub_go m 0 s.

(** [re.search(pattern, s)]: the match at the leftmost position that
    has one, as [group(0)]. *)
Fixpoint search (m : str -> option nat) (s : str) : option str :=
  match m s with
  | Some n => Some (firstn n s)
  | None =>
      match s with
      | [] => None
      | _ :: s' => search m s'
      end
  end.

(** Position of the first [c] in [s]. *)
Fixpoint index (c : char) (s : str) : option nat :=
  match s with
  | [] => None
  | a :: s' =>
      if N.eqb a c then Some 0
      else option_map S (index c s')
  end.

(** Match length of [SELECT\s+.+?;] under [IGNORECASE | DOTALL] at the
    start of [s].  After the literal, [\s+] is greedy and takes the whole
    run of [k >= 1] blanks; the lazy [.+?] then takes one character [c]
    and goes on to the first [;] behind it.  When there is no such [;],
    the only match left by backtracking gives one blank back to [.+?],
    which needs [k >= 2] and [c] to be the [;]. *)
Definition select_stmt (s : str) : option nat :=
  if lit_at true (lit "SELECT") s then
    let rest := skipn 6 s in
    let k := spaces rest in
    match k, skipn k rest with
    | O, _ => None
    | _, [] => None
    | _, c :: r =>
        match index (chr ";") r with
        | Some q => Some (6 + k + 1 + (q + 1))
        | None =>
            if (2 <=? k) && N.eqb c (chr ";") then Some (6 + k + 1) else None
        end
    end
  else None.

Section Words.

Context {U : Unicode}.

(** [\b] between two neighbouring positions; [None] is an end of the
    text. *)
Definition isword_opt (c : option char) : bool :=
  match c with Some a => Py.isword a | None => false end.

Definition boundary (prev next : option char) : bool :=
  xorb (isword_opt prev) (isword_opt next).

(** [\b kw \b] matches at the start of [s], where [prev] is the
    character before [s]. *)
Definition word_at (kw : str) (prev : option char) (s : str) : bool :=
  boundary prev (hd_error s)
  && lit_at false kw s
  && boundary (hd_error (rev (firstn (length kw) s)))
              (hd_error (skipn (length kw) s)).

(** [re.search(r'\b' + kw + r'\b', s)] as a truth value. *)
Fixpoint search_word_from (kw : str) (prev : option char) (s : str) : bool :=
  word_at kw prev s ||
  match s with
  | [] => false
  | c :: s' => search_word_from kw (Some c) s'
  end.

Definition search_word (kw s : str) : bool := search_word_from kw None s.

End Words.

End Re.

(** ** [AIService]: the response sanitizer and the safety validator *)

Module AIService.

Definition FORBIDDEN_KEYWORDS : list str :=
  map lit
    [ "INSERT"; "UPDATE"; "DELETE"; "DROP"; "CREATE"; "ALTER";
      "TRUNCATE"; "GRANT"; "REVOKE"; "EXECUTE"; "EXEC";
      "MERGE"; "CALL"; "LOAD"; "REPLACE"; "LOCK"; "UNLOCK" ]%string.

Definition prefixes_to_remove : list str :=
  map lit
    [ "Here's the query:"; "Here is the query:"; "The SQL query is:";
      "SQL Query:"; "Query:" ]%string.

(** The three [re.sub] calls that remove markdown code fences. *)
Definition remove_fences (sql : str) : str :=
  let sql := Re.sub (Re.lit_spaces true (lit "```sql")) sql in
  let sql := Re.sub (Re.lit_spaces true (lit "```mysql")) sql in
  Re.sub (Re.lit_spaces false (lit "```")) sql.

(** The loop [for prefix in prefixes_to_remove: sql = re.sub(...)]. *)
Definition remove_prefixes (sql : str) : str :=
  fold_left (fun sql prefix => Re.sub (Re.lit_only true prefix) sql)
            prefixes_to_remove sql.

(** The text on which the statement is looked for: fences and prefixes
    removed, then [strip()]. *)
Definition unwrap (sql : str) : str :=
  Py.strip (remove_prefixes (remove_fences sql)).

Definition clean_sql_response (sql : str) : str :=
  let sql := unwrap sql in
  let sql :=
    match Re.search Re.select_stmt sql with
    | Some group1 => group1
    | None => sql
    end in
  if Py.truthy sql && negb (Py.endswith_char sql (chr ";"))
  then sql ++ lit ";"
  else sql.

(** *** The log of the calls of [generate_sql]

    The two provider adapters perform HTTP requests; they are taken as
    functions from the prompt and the schema description to the pair
    [(success, sql_or_error)] they return.  Every call that
    [generate_sql] makes is appended to a log, so that the calls it does
    not make can be told from those it does. *)

Inductive call :=
| call_openai (prompt schema_context : str)
| call_gemini (prompt schema_context : str)
| call_clean (sql : str)
| call_validate (sql : str).

Definition traced (A : Type) : Type := list call -> A * list call.

Definition ret {A} (a : A) : traced A := fun log => (a, log).

Definition bind {A B} (c : traced A) (k : A -> traced B) : traced B :=
  fun log => let (a, log') := c log in k a log'.

(** A call [c] that returns [a]. *)
Definition invoke {A} (c : call) (a : A) : traced A :=
  fun log => (a, log ++ [c]).

Notation "x <- c ;; k" := (bind c (fun x => k))
  (at level 61, c at next level, right associativity).
Notation "' pat <- c ;; k" := (bind c (fun x => match x with pat => k end))
  (at level 61, pat pattern, c at next level, right associativity).

Section Validator.

Context {U : Unicode}.

(** The loop over [FORBIDDEN_KEYWORDS]: the first keyword, in the order
    of the list [kws], that [re.search] finds as a word in [text]. *)
Definition first_keyword (kws : list str) (text : str) : option str :=
  find (fun keyword => Re.search_word keyword text) kws.

Definition validate_sql (sql : str) : bool * str :=
  if negb (Py.truthy sql) then (false, lit "Empty SQL query")
  else if Py.startswith (Py.upper sql) (lit "ERROR:") then (false, sql)
  else
    let sql_upper := Py.upper sql in
    if negb (Py.startswith (Py.strip sql_upper) (lit "SELECT"))
    then (false, lit "Only SELECT queries are allowed")
    else
      match first_keyword FORBIDDEN_KEYWORDS sql_upper with
      | Some keyword =>
          (false, lit "Forbidden operation detected: " ++ keyword)
      | None =>
          let semicolon_count := Py.count (chr ";") sql in
          if 1 <? semicolon_count
          then (false, lit "Multiple SQL statements not allowed")
          else if Py.contains (lit "--") sql || Py.contains (lit "/*") sql
          then (false, lit "SQL comments not allowed")
          else (true, lit "SQL query is valid")
      end.

(** *** The orchestrator [generate_sql] *)

Variable provider : str.
Variable _call_openai _call_gemini : str -> str -> bool * str.

Definition generate_sql (prompt schema_context : str)
  : traced (bool * str * str) :=
  if negb (Py.truthy prompt) || negb (Py.truthy (Py.strip prompt))
  then ret (false, [], lit "Empty prompt provided")
  else
    '(success, result) <-
      (if Py.eqb provider (lit "openai")
       then invoke (call_openai prompt schema_context)
                   (_call_openai prompt schema_context)
       else invoke (call_gemini prompt schema_context)
                   (_call_gemini prompt schema_context)) ;;
    if negb success then ret (false, [], result)
    else
      sql <- invoke (call_clean result) (clean_sql_response result) ;;
      '(is_valid, validation_message) <-
        invoke (call_validate sql) (validate_sql sql) ;;
      if negb is_valid then ret (false, sql, validation_message)
      else ret (true, sql, lit "SQL generated and validated successfully").

End Validator.

End AIService.

(** ** [execute_manual_query]: the checks before execution *)

Module App.

Definition dangerous_keywords : list str :=
  map lit [ "DROP"; "TRUNCATE"; "GRANT"; "REVOKE"; "ALTER"; "CREATE" ]%string.

(** What the handler does with the text under [sql] of the request:
    answer 400 with an [error] (and, for some errors, the [sql] it
    refused), or call [execute_manual_sql(sql_query)].  That function is
    imported from [db], which does not define it; the handler is followed
    up to the call. *)
Inductive checked :=
| Refuse (error : str) (sql : option str)
| Execute (sql_query : str).

Definition dangerous_message (keyword : str) : str :=
  lit "Dangerous operation detected: " ++ keyword
  ++ lit ". Only SELECT, INSERT, UPDATE, DELETE are allowed.".

Section Manual.

Context {U : Unicode}.

Definition execute_manual_query (sql : str) : checked :=
  if negb (Py.truthy sql) then Refuse (lit "No SQL query provided") None
  else
    let sql_query := Py.strip sql in
    if negb (Py.truthy sql_query) then Refuse (lit "Empty SQL query") None
    else
      let sql_upper := Py.upper sql_query in
      match AIService.first_keyword dangerous_keywords sql_upper with
      | Some keyword => Refuse (dangerous_message keyword) (Some sql_query)
      | None =>
          if 1 <? Py.count (chr ";") sql_query
          then Refuse (lit "Multiple SQL statements not allowed")
                      (Some sql_query)
          else Execute sql_query
      end.

End Manual.

End App.

(** ** The two validation policies

    The strict policy is [AIService.validate_sql]; the policy for edited
    statements is the chain of checks that [execute_manual_query] makes
    before it executes. *)

Inductive ValidationPolicy := STRICT_READ_ONLY | RESTRICTED_MUTATION.

Inductive ValidationResult :=
| Valid (statement : str)
| Invalid (reason : str).

Definition denylist (p : ValidationPolicy) : list str :=
  match p with
  | STRICT_READ_ONLY => AIService.FORBIDDEN_KEYWORDS
  | RESTRICTED_MUTATION => App.dangerous_keywords
  end.

(** The reason with which each policy names a keyword. *)
Definition keyword_reason (p : ValidationPolicy) (keyword : str) : str :=
  match p with
  | STRICT_READ_ONLY => lit "Forbidden operation detected: " ++ keyword
  | RESTRICTED_MUTATION => App.dangerous_message keyword
  end.

Definition multiple_reason : str := lit "Multiple SQL statements not allowed".
Definition comments_reason : str := lit "SQL comments not allowed".
Definition not_select_reason : str := lit "Only SELECT queries are allowed".
Definition empty_reason : str := lit "Empty SQL query".

(** The sentinel with which the model declines a request. *)
Definition sentinel : str := lit "ERROR: Cannot generate a valid SELECT query".

(** ** Notions of the specification *)

(** [p] occurs somewhere in [s]. *)
Definition occurs (p s : str) : Prop :=
  exists pre post, s = pre ++ p ++ post.

(** [t] begins with [p]. *)
Definition begins (p t : str) : Prop :=
  exists rest, t = p ++ rest.

(** An inline or a block comment marker occurs in [s]. *)
Definition has_comment (s : str) : Prop :=
  occurs (lit "--") s \/ occurs (lit "/*") s.

(** Empty or made of white space only. *)
Definition blank (s : str) : Prop :=
  Forall (fun c => Py.isspace c = true) s.



(** [w] is [p] up to the letter case that [re.IGNORECASE] ignores. *)
Definition same_ci (p w : str) : Prop := map Re.fold w = map Re.fold p.

(** [p] occurs somewhere in [s], up to the letter case that
    [re.IGNORECASE] ignores. *)
Definition occurs_ci (p s : str) : Prop :=
  exists pre w post, s = pre ++ w ++ post /\ same_ci p w.

(** [s] begins with [p], up to the letter case that [re.IGNORECASE]
    ignores. *)
Definition begins_same_ci (p s : str) : Prop :=
  exists w rest, s = w ++ rest /\ same_ci p w.

(** The character before position [length a] of [a ++ _], when [prev]
    stands before [a]. *)
Definition before (prev : option char) (a : str) : option char :=
  match hd_error (rev a) with Some x => Some x | None => prev end.

(** The loop over the prefixes, for any list of them. *)
Definition remove_all (ps : list str) (s : str) : str :=
  fold_left (fun sql prefix => Re.sub (Re.lit_only true prefix) sql) ps s.

(** The shape of a cleaned text: empty, or from a character other than
    white space to a final terminator. *)
Definition cleaned (y : str) : Prop :=
  y = [] \/
  (exists c r, y = c :: r /\ Py.isspace c = false)
  /\ Py.endswith_char y (chr ";") = true.

(** A plain statement: SELECT in any letter case, white space, a body
    that begins with a character other than white space and holds no
    terminator, and the terminator. *)
Definition plain_select (y : str) : Prop :=
  exists w sp c body,
    y = w ++ sp ++ (c :: body) ++ [chr ";"]
    /\ same_ci (lit "SELECT") w
    /\ sp <> [] /\ blank sp
    /\ Py.isspace c = false
    /\ Py.count (chr ";") (c :: body) = 0.

Section Policies.

Context {U : Unicode}.

Definition validate (candidate : str) (p : ValidationPolicy) : ValidationResult :=
  match p with
  | STRICT_READ_ONLY =>
      match AIService.validate_sql candidate with
      | (true, _) => Valid candidate
      | (false, message) => Invalid message
      end
  | RESTRICTED_MUTATION =>
      match App.execute_manual_query candidate with
      | App.Execute sql_query => Valid sql_query
      | App.Refuse error _ => Invalid error
      end
  end.

(** [kw] stands in the text [t] as a whole word: neither the character
    before it nor the one behind it is a word character. *)
Definition whole_word (kw t : str) : Prop :=
  exists pre post,
    t = pre ++ kw ++ post /\
    Re.isword_opt (hd_error (rev pre)) = false /\
    Re.isword_opt (hd_error post) = false.

(** The text in which a policy looks for the keywords of its denylist.
    Both look in the upper-cased candidate, which is how they ignore letter
    case; the manual handler trims the candidate first. *)
Definition scanned (p : ValidationPolicy) (s : str) : str :=
  match p with
  | STRICT_READ_ONLY => Py.upper s
  | RESTRICTED_MUTATION => Py.upper (Py.strip s)
  end.

(** [kw] occurs in the candidate [s] as a whole word, in any letter
    case. *)
Definition has_keyword (p : ValidationPolicy) (kw s : str) : Prop :=
  whole_word kw (scanned p s).

(** No keyword of the policy's denylist is a whole word of [s]. *)
Definition no_keyword (p : ValidationPolicy) (s : str) : Prop :=
  forall kw, In kw (denylist p) -> ~ has_keyword p kw s.


(** [s] begins with [p], in any letter case: the upper-cased [s] begins
    with the upper-cased [p]. *)
Definition begins_ci (p s : str) : Prop :=
  exists rest, Py.upper s = Py.upper p ++ rest.

(** The text of [s] begins with the letters SELECT, in any letter case,
    white space before them skipped: the upper-cased [s], trimmed, begins
    with SELECT. *)
Definition leading_select (s : str) : Prop :=
  begins (lit "SELECT") (Py.strip (Py.upper s)).

(** The guards that come before the keyword scan let [s] through.  In
    [validate_sql]: [s] does not begin with [ERROR:] and begins, white
    space skipped, with [SELECT], each in any letter case (so it is not
    empty).  In the manual handler: [s] is not blank. *)
Definition reaches_keyword_scan (p : ValidationPolicy) (s : str) : Prop :=
  match p with
  | STRICT_READ_ONLY => ~ begins_ci (lit "ERROR:") s /\ leading_select s
  | RESTRICTED_MUTATION => ~ blank s
  end.

(** What the scan needs of a keyword: it is not empty and made of word
    characters.  Every keyword of both lists is. *)
Definition keyword_like (kw : str) : Prop :=
  kw <> [] /\ Forall (fun c => Py.isword c = true) kw.

(** What the strict validator asks of a candidate it accepts. *)
Definition acceptable (s : str) : Prop :=
  leading_select s
  /\ no_keyword STRICT_READ_ONLY s
  /\ Py.count (chr ";") s <= 1
  /\ ~ has_comment s.

End Policies.

(** ** The configured adapter

    [generate_sql] with the calls it makes, started on a log. *)

Section Configured.

Context {U : Unicode}.

Variable provider : str.
Variable _call_openai _call_gemini : str -> str -> bool * str.

(** The adapter that the configuration selects, and the call to it as
    it is logged. *)
Definition adapter : str -> str -> bool * str :=
  if Py.eqb provider (lit "openai") then _call_openai else _call_gemini.

Definition adapter_call (prompt schema_context : str) : AIService.call :=
  if Py.eqb provider (lit "openai")
  then AIService.call_openai prompt schema_context
  else AIService.call_gemini prompt schema_context.

Definition run (prompt schema_context : str) (log : list AIService.call) :=
  AIService.generate_sql provider _call_openai _call_gemini
                         prompt schema_context log.

End Configured.

(** ** The provider adapters: the guard on the API key

    [_call_openai] and [_call_gemini] first look at the key and answer
    without any request when it is empty or still the placeholder of the
    sample configuration.  All that follows the guard (the request, the
    reading of the response, the handlers of every exception) returns a
    pair [(success, sql_or_error)] and is taken as the function
    [request]. *)

Module Adapters.

Definition openai_placeholder : str := lit "your_openai_api_key_here".
Definition gemini_placeholder : str := lit "your_gemini_api_key_here".

Definition _call_openai (openai_key : str)
    (request : str -> str -> bool * str)
    (prompt schema_context : str) : bool * str :=
  if negb (Py.truthy openai_key) || Py.eqb openai_key openai_placeholder
  then (false, lit "OpenAI API key not configured")
  else request prompt schema_context.

Definition _call_gemini (gemini_key : str)
    (request : str -> str -> bool * str)
    (prompt schema_context : str) : bool * str :=
  if negb (Py.truthy gemini_key) || Py.eqb gemini_key gemini_placeholder
  then (false, lit "Gemini API key not configured. Please add your GEMINI_API_KEY to the .env file.")
  else request prompt schema_context.

(** The values that the expression for [ai_configured] can take: Python's
    [and] and [or] return one of their operands, here a boolean or a
    key. *)
Inductive value :=
| Bool (b : bool)
| Str (s : str).

Definition truthy (v : value) : bool :=
  match v with
  | Bool b => b
  | Str s => Py.truthy s
  end.

(** [a and b], [a or b] *)
Definition and_ (a b : value) : value := if truthy a then b else a.
Definition or_ (a b : value) : value := if truthy a then a else b.

(** [ai_configured] of [health_check]; [provider] is the attribute
    [ai_service.provider], the configured name in lower case. *)
Definition ai_configured (provider openai_key gemini_key : str) : value :=
  or_ (and_ (and_ (Bool (Py.eqb provider (lit "openai"))) (Str openai_key))
            (Bool (negb (Py.eqb openai_key openai_placeholder))))
      (and_ (and_ (Bool (Py.eqb provider (lit "gemini"))) (Str gemini_key))
            (Bool (negb (Py.eqb gemini_key gemini_placeholder)))).

(** [generate_sql] of a service configured with the two keys, on an empty
    log. *)
Definition generate_sql {U : Unicode} (provider openai_key gemini_key : str)
    (openai_request gemini_request : str -> str -> bool * str)
    (prompt schema_context : str) : (bool * str * str) * list AIService.call :=
  AIService.generate_sql provider
    (_call_openai openai_key openai_request)
    (_call_gemini gemini_key gemini_request)
    prompt schema_context [].

End Adapters.

(** ** [db.py]: the description of the schema

    [get_table_schema] queries the database; the dictionary it returns is
    taken as the list of its items, in the order of insertion.  Of a
    column, [get_schema_description] reads the name, the type and the
    key. *)

Module Db.

Record column := {
  col_name : str;
  col_type : str;
  col_nullable : bool;
  col_key : str;
  col_default : option str
}.

Definition table_schema := list (str * list column).

(** The line feed. *)
Definition nl : str := [10%N].

(** [sep.join(parts)] *)
Fixpoint join (sep : str) (parts : list str) : str :=
  match parts with
  | [] => []
  | [p] => p
  | p :: rest => p ++ sep ++ join sep rest
  end.

Definition col_desc (col : column) : str :=
  let col_desc :=
    lit "  - " ++ col_name col ++ lit " (" ++ col_type col ++ lit ")" in
  if Py.eqb (col_key col) (lit "PRI") then col_desc ++ lit " [PRIMARY KEY]"
  else if Py.eqb (col_key col) (lit "MUL") then col_desc ++ lit " [FOREIGN KEY]"
  else col_desc.

(** The parts appended for one table. *)
Definition table_parts (item : str * list column) : list str :=
  let (table_name, columns) := item in
  [nl ++ lit "Table: " ++ table_name; lit "Columns:"] ++ map col_desc columns.

Definition description_parts (schema : table_schema) : list str :=
  [lit "Database Schema:" ++ nl] ++ flat_map table_parts schema.

Definition get_schema_description (schema : table_schema) : str :=
  match schema with
  | [] => lit "Unable to retrieve database schema."
  | _ => join nl (description_parts schema)
  end.

End Db.

(** ** [app.py]: the handlers that generate or validate before they execute

    A handler is embedded as the function from what it reads of the
    request to the response it returns, together with the log of the calls
    it makes to its collaborators.  [execute_sql] returns
    [(True, rows, message)] or [(False, None, message)]: rows with a
    message, or a message.  Reading the request can raise, and
    [process_prompt] then answers from its [except] branch; past that
    point the handlers are followed as long as no collaborator raises. *)

Module Routes.

(** What a handler calls. *)
Inductive effect :=
| ai (c : AIService.call)
| get_schema_context_call
| execute_sql_call (query : str).

Definition str_of_nat (n : nat) : str :=
  lit (NilEmpty.string_of_uint (Nat.to_uint n)).

(** The JSON value under a key of the object that a request carries:
    no such key, a string, or another value (null, a number, a boolean, an
    array, an object).  Of a value that is no string the handlers look at
    the truth value ([truthy]: false for null, zero, false, an empty array
    or object) and call [.strip()] on it, which raises an
    [AttributeError]; [e] is the text [str(e)] of that exception. *)
Inductive field_value :=
| missing
| text (s : str)
| other (truthy : bool) (e : str).

(** What a handler reads of a request:
    - [unreadable e]: [request.get_json()] raises (the body is not JSON,
      or not declared as JSON), with the text [e];
    - [no_data]: [get_json()] gives a falsy value (null, an empty object
      or array, an empty string, zero, false);
    - [not_an_object e]: it gives a truthy value that is no object (an
      array, a string, a number, true), on which [data.get] raises an
      [AttributeError] with the text [e];
    - [data_with v]: it gives an object that is not empty, with [v] under
      the key that the handler reads ([prompt] or [sql]). *)
Inductive request :=
| unreadable (e : str)
| no_data
| not_an_object (e : str)
| data_with (v : field_value).

Section Routes.

Context {U : Unicode}.

Variable row : Type.

(** The values of the JSON bodies. *)
Inductive json :=
| JNull
| JBool (b : bool)
| JInt (n : nat)
| JStr (s : str)
| JRows (rows : list row).

(** An item of a JSON object. *)
Definition field (key : string) (v : json) : string * json := (key, v).

Record response := {
  status : nat;
  body : list (string * json)
}.

Definition failure (status : nat) (error : str) (sql : json) : response :=
  {| status := status;
     body := [field "success" (JBool false); field "error" (JStr error);
              field "sql" sql; field "data" JNull] |}.

(** The [except Exception as e] branch of [process_prompt]. *)
Definition server_error (e : str) : response :=
  failure 500 (lit "Server error: " ++ e) JNull.

Variable provider : str.
Variable _call_openai _call_gemini : str -> str -> bool * str.
Variable schema_context : str.
Variable execute_sql : str -> (list row * str) + str.

(** The handler from the point where [prompt] holds the trimmed text. *)
Definition process_text (prompt : str) : response * list effect :=
  if negb (Py.truthy prompt)
  then (failure 400 (lit "Empty prompt provided. Please enter a query.")
                JNull, [])
  else if negb (Py.truthy schema_context)
          || Py.contains (lit "Unable to retrieve") schema_context
  then (failure 500
          (lit "Failed to retrieve database schema. Please check database connection.")
          JNull,
        [get_schema_context_call])
  else
    let '((ai_success, sql_query, ai_message), calls) :=
      AIService.generate_sql provider _call_openai _call_gemini
                             prompt schema_context [] in
    let log := get_schema_context_call :: map ai calls in
    if negb ai_success
    then (failure 400 (lit "AI Error: " ++ ai_message)
                  (if Py.truthy sql_query then JStr sql_query else JNull),
          log)
    else
      match execute_sql sql_query with
      | inr db_message =>
          (failure 400 (lit "Database Error: " ++ db_message)
                   (JStr sql_query),
           log ++ [execute_sql_call sql_query])
      | inl (results, _) =>
          ({| status := 200;
              body := [field "success" (JBool true);
                       field "sql" (JStr sql_query);
                       field "data" (JRows results);
                       field "row_count" (JInt (length results));
                       field "message"
                         (JStr (lit "Query executed successfully. "
                                ++ str_of_nat (length results)
                                ++ lit " rows returned."))] |},
           log ++ [execute_sql_call sql_query])
      end.

Definition process_prompt (r : request) : response * list effect :=
  match r with
  | unreadable e => (server_error e, [])
  | no_data => (failure 400 (lit "No JSON data provided") JNull, [])
  | not_an_object e => (server_error e, [])
  | data_with missing => process_text (Py.strip [])
  | data_with (text p) => process_text (Py.strip p)
  | data_with (other _ e) => (server_error e, [])
  end.

(** The answers of [execute_raw_query] before any validation. *)
Definition no_sql : response * list effect :=
  ({| status := 400;
      body := [field "success" (JBool false);
               field "error" (JStr (lit "No SQL query provided"))] |},
   []).

(** The [except Exception as e] branch of [execute_raw_query]. *)
Definition raw_error (e : str) : response * list effect :=
  ({| status := 500;
      body := [field "success" (JBool false); field "error" (JStr e)] |},
   []).

(** [execute_raw_query] from the point where the field [sql] is known to
    be a string that is not empty. *)
Definition execute_raw_text (sql : str) : response * list effect :=
  let sql_query := Py.strip sql in
  let (is_valid, validation_message) := AIService.validate_sql sql_query in
  if negb is_valid
  then ({| status := 400;
           body := [field "success" (JBool false);
                    field "error"
                     (JStr (lit "Invalid query: " ++ validation_message));
                    field "sql" (JStr sql_query)] |},
        [])
  else
    match execute_sql sql_query with
    | inr message =>
        ({| status := 400;
            body := [field "success" (JBool false);
                    field "error" (JStr message);
                     field "sql" (JStr sql_query)] |},
         [execute_sql_call sql_query])
    | inl (results, _) =>
        ({| status := 200;
            body := [field "success" (JBool true); field "sql" (JStr sql_query);
                     field "data" (JRows results);
                     field "row_count" (JInt (length results))] |},
         [execute_sql_call sql_query])
    end.

Definition execute_raw_query (r : request) : response * list effect :=
  match r with
  | unreadable e => raw_error e
  | no_data => no_sql
  | not_an_object e => raw_error e
  | data_with missing => no_sql
  | data_with (text sql) =>
      if negb (Py.truthy sql) then no_sql else execute_raw_text sql
  | data_with (other truthy e) => if truthy then raw_error e else no_sql
  end.

End Routes.

(** The statements that a log shows as handed to [execute_sql]. *)
Fixpoint executed (log : list effect) : list str :=
  match log with
  | [] => []
  | execute_sql_call q :: log' => q :: executed log'
  | _ :: log' => executed log'
  end.

(** The calls to a provider adapter that a log shows. *)
Fixpoint provider_calls (log : list effect) : nat :=
  match log with
  | [] => 0
  | ai (AIService.call_openai _ _) :: log' => S (provider_calls log')
  | ai (AIService.call_gemini _ _) :: log' => S (provider_calls log')
  | _ :: log' => provider_calls log'
  end.

End Routes.

(** ** The tables of the interpreter

    The theorems below hold whatever the tables of [Unicode] are.  The
    closed examples are evaluated with the tables of CPython 3.11
    (Unicode 14.0), for the characters above 127:
    - [word_ranges]: the ranges of the alphanumeric characters;
    - [upper_runs]: [(first, last, step, image)], the characters from
      [first] to [last], [step] apart, whose upper case is one character,
      [image] for [first] and as far from it as the character is from
      [first];
    - [upper_special]: the characters whose upper case is several
      characters.
    Every other character is its own upper case. *)

Module CPython.

Definition word_ranges : list (N * N) :=
  [
    (170, 170); (178, 179); (181, 181); (185, 186); (188, 190); (192, 214);
    (216, 246); (248, 705); (710, 721); (736, 740); (748, 748); (750, 750);
    (880, 884); (886, 887); (890, 893); (895, 895); (902, 902); (904, 906);
    (908, 908); (910, 929); (931, 1013); (1015, 1153); (1162, 1327);
    (1329, 1366); (1369, 1369); (1376, 1416); (1488, 1514); (1519, 1522);
    (1568, 1610); (1632, 1641); (1646, 1647); (1649, 1747); (1749, 1749);
    (1765, 1766); (1774, 1788); (1791, 1791); (1808, 1808); (1810, 1839);
    (1869, 1957); (1969, 1969); (1984, 2026); (2036, 2037); (2042, 2042);
    (2048, 2069); (2074, 2074); (2084, 2084); (2088, 2088); (2112, 2136);
    (2144, 2154); (2160, 2183); (2185, 2190); (2208, 2249); (2308, 2361);
    (2365, 2365); (2384, 2384); (2392, 2401); (2406, 2415); (2417, 2432);
    (2437, 2444); (2447, 2448); (2451, 2472); (2474, 2480); (2482, 2482);
    (2486, 2489); (2493, 2493); (2510, 2510); (2524, 2525); (2527, 2529);
    (2534, 2545); (2548, 2553); (2556, 2556); (2565, 2570); (2575, 2576);
    (2579, 2600); (2602, 2608); (2610, 2611); (2613, 2614); (2616, 2617);
    (2649, 2652); (2654, 2654); (2662, 2671); (2674, 2676); (2693, 2701);
    (2703, 2705); (2707, 2728); (2730, 2736); (2738, 2739); (2741, 2745);
    (2749, 2749); (2768, 2768); (2784, 2785); (2790, 2799); (2809, 2809);
    (2821, 2828); (2831, 2832); (2835, 2856); (2858, 2864); (2866, 2867);
    (2869, 2873); (2877, 2877); (2908, 2909); (2911, 2913); (2918, 2927);
    (2929, 2935); (2947, 2947); (2949, 2954); (2958, 2960); (2962, 2965);
    (2969, 2970); (2972, 2972); (2974, 2975); (2979, 2980); (2984, 2986);
    (2990, 3001); (3024, 3024); (3046, 3058); (3077, 3084); (3086, 3088);
    (3090, 3112); (3114, 3129); (3133, 3133); (3160, 3162); (3165, 3165);
    (3168, 3169); (3174, 3183); (3192, 3198); (3200, 3200); (3205, 3212);
    (3214, 3216); (3218, 3240); (3242, 3251); (3253, 3257); (3261, 3261);
    (3293, 3294); (3296, 3297); (3302, 3311); (3313, 3314); (3332, 3340);
    (3342, 3344); (3346, 3386); (3389, 3389); (3406, 3406); (3412, 3414);
    (3416, 3425); (3430, 3448); (3450, 3455); (3461, 3478); (3482, 3505);
    (3507, 3515); (3517, 3517); (3520, 3526); (3558, 3567); (3585, 3632);
    (3634, 3635); (3648, 3654); (3664, 3673); (3713, 3714); (3716, 3716);
    (3718, 3722); (3724, 3747); (3749, 3749); (3751, 3760); (3762, 3763);
    (3773, 3773); (3776, 3780); (3782, 3782); (3792, 3801); (3804, 3807);
    (3840, 3840); (3872, 3891); (3904, 3911); (3913, 3948); (3976, 3980);
    (4096, 4138); (4159, 4169); (4176, 4181); (4186, 4189); (4193, 4193);
    (4197, 4198); (4206, 4208); (4213, 4225); (4238, 4238); (4240, 4249);
    (4256, 4293); (4295, 4295); (4301, 4301); (4304, 4346); (4348, 4680);
    (4682, 4685); (4688, 4694); (4696, 4696); (4698, 4701); (4704, 4744);
    (4746, 4749); (4752, 4784); (4786, 4789); (4792, 4798); (4800, 4800);
    (4802, 4805); (4808, 4822); (4824, 4880); (4882, 4885); (4888, 4954);
    (4969, 4988); (4992, 5007); (5024, 5109); (5112, 5117); (5121, 5740);
    (5743, 5759); (5761, 5786); (5792, 5866); (5870, 5880); (5888, 5905);
    (5919, 5937); (5952, 5969); (5984, 5996); (5998, 6000); (6016, 6067);
    (6103, 6103); (6108, 6108); (6112, 6121); (6128, 6137); (6160, 6169);
    (6176, 6264); (6272, 6276); (6279, 6312); (6314, 6314); (6320, 6389);
    (6400, 6430); (6470, 6509); (6512, 6516); (6528, 6571); (6576, 6601);
    (6608, 6618); (6656, 6678); (6688, 6740); (6784, 6793); (6800, 6809);
    (6823, 6823); (6917, 6963); (6981, 6988); (6992, 7001); (7043, 7072);
    (7086, 7141); (7168, 7203); (7232, 7241); (7245, 7293); (7296, 7304);
    (7312, 7354); (7357, 7359); (7401, 7404); (7406, 7411); (7413, 7414);
    (7418, 7418); (7424, 7615); (7680, 7957); (7960, 7965); (7968, 8005);
    (8008, 8013); (8016, 8023); (8025, 8025); (8027, 8027); (8029, 8029);
    (8031, 8061); (8064, 8116); (8118, 8124); (8126, 8126); (8130, 8132);
    (8134, 8140); (8144, 8147); (8150, 8155); (8160, 8172); (8178, 8180);
    (8182, 8188); (8304, 8305); (8308, 8313); (8319, 8329); (8336, 8348);
    (8450, 8450); (8455, 8455); (8458, 8467); (8469, 8469); (8473, 8477);
    (8484, 8484); (8486, 8486); (8488, 8488); (8490, 8493); (8495, 8505);
    (8508, 8511); (8517, 8521); (8526, 8526); (8528, 8585); (9312, 9371);
    (9450, 9471); (10102, 10131); (11264, 11492); (11499, 11502);
    (11506, 11507); (11517, 11517); (11520, 11557); (11559, 11559);
    (11565, 11565); (11568, 11623); (11631, 11631); (11648, 11670);
    (11680, 11686); (11688, 11694); (11696, 11702); (11704, 11710);
    (11712, 11718); (11720, 11726); (11728, 11734); (11736, 11742);
    (11823, 11823); (12293, 12295); (12321, 12329); (12337, 12341);
    (12344, 12348); (12353, 12438); (12445, 12447); (12449, 12538);
    (12540, 12543); (12549, 12591); (12593, 12686); (12690, 12693);
    (12704, 12735); (12784, 12799); (12832, 12841); (12872, 12879);
    (12881, 12895); (12928, 12937); (12977, 12991); (13312, 19903);
    (19968, 42124); (42192, 42237); (42240, 42508); (42512, 42539);
    (42560, 42606); (42623, 42653); (42656, 42735); (42775, 42783);
    (42786, 42888); (42891, 42954); (42960, 42961); (42963, 42963);
    (42965, 42969); (42994, 43009); (43011, 43013); (43015, 43018);
    (43020, 43042); (43056, 43061); (43072, 43123); (43138, 43187);
    (43216, 43225); (43250, 43255); (43259, 43259); (43261, 43262);
    (43264, 43301); (43312, 43334); (43360, 43388); (43396, 43442);
    (43471, 43481); (43488, 43492); (43494, 43518); (43520, 43560);
    (43584, 43586); (43588, 43595); (43600, 43609); (43616, 43638);
    (43642, 43642); (43646, 43695); (43697, 43697); (43701, 43702);
    (43705, 43709); (43712, 43712); (43714, 43714); (43739, 43741);
    (43744, 43754); (43762, 43764); (43777, 43782); (43785, 43790);
    (43793, 43798); (43808, 43814); (43816, 43822); (43824, 43866);
    (43868, 43881); (43888, 44002); (44016, 44025); (44032, 55203);
    (55216, 55238); (55243, 55291); (63744, 64109); (64112, 64217);
    (64256, 64262); (64275, 64279); (64285, 64285); (64287, 64296);
    (64298, 64310); (64312, 64316); (64318, 64318); (64320, 64321);
    (64323, 64324); (64326, 64433); (64467, 64829); (64848, 64911);
    (64914, 64967); (65008, 65019); (65136, 65140); (65142, 65276);
    (65296, 65305); (65313, 65338); (65345, 65370); (65382, 65470);
    (65474, 65479); (65482, 65487); (65490, 65495); (65498, 65500);
    (65536, 65547); (65549, 65574); (65576, 65594); (65596, 65597);
    (65599, 65613); (65616, 65629); (65664, 65786); (65799, 65843);
    (65856, 65912); (65930, 65931); (66176, 66204); (66208, 66256);
    (66273, 66299); (66304, 66339); (66349, 66378); (66384, 66421);
    (66432, 66461); (66464, 66499); (66504, 66511); (66513, 66517);
    (66560, 66717); (66720, 66729); (66736, 66771); (66776, 66811);
    (66816, 66855); (66864, 66915); (66928, 66938); (66940, 66954);
    (66956, 66962); (66964, 66965); (66967, 66977); (66979, 66993);
    (66995, 67001); (67003, 67004); (67072, 67382); (67392, 67413);
    (67424, 67431); (67456, 67461); (67463, 67504); (67506, 67514);
    (67584, 67589); (67592, 67592); (67594, 67637); (67639, 67640);
    (67644, 67644); (67647, 67669); (67672, 67702); (67705, 67742);
    (67751, 67759); (67808, 67826); (67828, 67829); (67835, 67867);
    (67872, 67897); (67968, 68023); (68028, 68047); (68050, 68096);
    (68112, 68115); (68117, 68119); (68121, 68149); (68160, 68168);
    (68192, 68222); (68224, 68255); (68288, 68295); (68297, 68324);
    (68331, 68335); (68352, 68405); (68416, 68437); (68440, 68466);
    (68472, 68497); (68521, 68527); (68608, 68680); (68736, 68786);
    (68800, 68850); (68858, 68899); (68912, 68921); (69216, 69246);
    (69248, 69289); (69296, 69297); (69376, 69415); (69424, 69445);
    (69457, 69460); (69488, 69505); (69552, 69579); (69600, 69622);
    (69635, 69687); (69714, 69743); (69745, 69746); (69749, 69749);
    (69763, 69807); (69840, 69864); (69872, 69881); (69891, 69926);
    (69942, 69951); (69956, 69956); (69959, 69959); (69968, 70002);
    (70006, 70006); (70019, 70066); (70081, 70084); (70096, 70106);
    (70108, 70108); (70113, 70132); (70144, 70161); (70163, 70187);
    (70272, 70278); (70280, 70280); (70282, 70285); (70287, 70301);
    (70303, 70312); (70320, 70366); (70384, 70393); (70405, 70412);
    (70415, 70416); (70419, 70440); (70442, 70448); (70450, 70451);
    (70453, 70457); (70461, 70461); (70480, 70480); (70493, 70497);
    (70656, 70708); (70727, 70730); (70736, 70745); (70751, 70753);
    (70784, 70831); (70852, 70853); (70855, 70855); (70864, 70873);
    (71040, 71086); (71128, 71131); (71168, 71215); (71236, 71236);
    (71248, 71257); (71296, 71338); (71352, 71352); (71360, 71369);
    (71424, 71450); (71472, 71483); (71488, 71494); (71680, 71723);
    (71840, 71922); (71935, 71942); (71945, 71945); (71948, 71955);
    (71957, 71958); (71960, 71983); (71999, 71999); (72001, 72001);
    (72016, 72025); (72096, 72103); (72106, 72144); (72161, 72161);
    (72163, 72163); (72192, 72192); (72203, 72242); (72250, 72250);
    (72272, 72272); (72284, 72329); (72349, 72349); (72368, 72440);
    (72704, 72712); (72714, 72750); (72768, 72768); (72784, 72812);
    (72818, 72847); (72960, 72966); (72968, 72969); (72971, 73008);
    (73030, 73030); (73040, 73049); (73056, 73061); (73063, 73064);
    (73066, 73097); (73112, 73112); (73120, 73129); (73440, 73458);
    (73648, 73648); (73664, 73684); (73728, 74649); (74752, 74862);
    (74880, 75075); (77712, 77808); (77824, 78894); (82944, 83526);
    (92160, 92728); (92736, 92766); (92768, 92777); (92784, 92862);
    (92864, 92873); (92880, 92909); (92928, 92975); (92992, 92995);
    (93008, 93017); (93019, 93025); (93027, 93047); (93053, 93071);
    (93760, 93846); (93952, 94026); (94032, 94032); (94099, 94111);
    (94176, 94177); (94179, 94179); (94208, 100343); (100352, 101589);
    (101632, 101640); (110576, 110579); (110581, 110587); (110589, 110590);
    (110592, 110882); (110928, 110930); (110948, 110951); (110960, 111355);
    (113664, 113770); (113776, 113788); (113792, 113800); (113808, 113817);
    (119520, 119539); (119648, 119672); (119808, 119892); (119894, 119964);
    (119966, 119967); (119970, 119970); (119973, 119974); (119977, 119980);
    (119982, 119993); (119995, 119995); (119997, 120003); (120005, 120069);
    (120071, 120074); (120077, 120084); (120086, 120092); (120094, 120121);
    (120123, 120126); (120128, 120132); (120134, 120134); (120138, 120144);
    (120146, 120485); (120488, 120512); (120514, 120538); (120540, 120570);
    (120572, 120596); (120598, 120628); (120630, 120654); (120656, 120686);
    (120688, 120712); (120714, 120744); (120746, 120770); (120772, 120779);
    (120782, 120831); (122624, 122654); (123136, 123180); (123191, 123197);
    (123200, 123209); (123214, 123214); (123536, 123565); (123584, 123627);
    (123632, 123641); (124896, 124902); (124904, 124907); (124909, 124910);
    (124912, 124926); (124928, 125124); (125127, 125135); (125184, 125251);
    (125259, 125259); (125264, 125273); (126065, 126123); (126125, 126127);
    (126129, 126132); (126209, 126253); (126255, 126269); (126464, 126467);
    (126469, 126495); (126497, 126498); (126500, 126500); (126503, 126503);
    (126505, 126514); (126516, 126519); (126521, 126521); (126523, 126523);
    (126530, 126530); (126535, 126535); (126537, 126537); (126539, 126539);
    (126541, 126543); (126545, 126546); (126548, 126548); (126551, 126551);
    (126553, 126553); (126555, 126555); (126557, 126557); (126559, 126559);
    (126561, 126562); (126564, 126564); (126567, 126570); (126572, 126578);
    (126580, 126583); (126585, 126588); (126590, 126590); (126592, 126601);
    (126603, 126619); (126625, 126627); (126629, 126633); (126635, 126651);
    (127232, 127244); (130032, 130041); (131072, 173791); (173824, 177976);
    (177984, 178205); (178208, 183969); (183984, 191456); (194560, 195101);
    (196608, 201546)
  ]%N.

Definition upper_runs : list (N * N * N * N) :=
  [
    (181, 181, 1, 924); (224, 246, 1, 192); (248, 254, 1, 216);
    (255, 255, 1, 376); (257, 303, 2, 256); (305, 305, 1, 73);
    (307, 311, 2, 306); (314, 328, 2, 313); (331, 375, 2, 330);
    (378, 382, 2, 377); (383, 383, 1, 83); (384, 384, 1, 579);
    (387, 389, 2, 386); (392, 392, 1, 391); (396, 396, 1, 395);
    (402, 402, 1, 401); (405, 405, 1, 502); (409, 409, 1, 408);
    (410, 410, 1, 573); (414, 414, 1, 544); (417, 421, 2, 416);
    (424, 424, 1, 423); (429, 429, 1, 428); (432, 432, 1, 431);
    (436, 438, 2, 435); (441, 441, 1, 440); (445, 445, 1, 444);
    (447, 447, 1, 503); (453, 453, 1, 452); (454, 454, 1, 452);
    (456, 456, 1, 455); (457, 457, 1, 455); (459, 459, 1, 458);
    (460, 460, 1, 458); (462, 476, 2, 461); (477, 477, 1, 398);
    (479, 495, 2, 478); (498, 498, 1, 497); (499, 499, 1, 497);
    (501, 501, 1, 500); (505, 543, 2, 504); (547, 563, 2, 546);
    (572, 572, 1, 571); (575, 576, 1, 11390); (578, 578, 1, 577);
    (583, 591, 2, 582); (592, 592, 1, 11375); (593, 593, 1, 11373);
    (594, 594, 1, 11376); (595, 595, 1, 385); (596, 596, 1, 390);
    (598, 599, 1, 393); (601, 601, 1, 399); (603, 603, 1, 400);
    (604, 604, 1, 42923); (608, 608, 1, 403); (609, 609, 1, 42924);
    (611, 611, 1, 404); (613, 613, 1, 42893); (614, 614, 1, 42922);
    (616, 616, 1, 407); (617, 617, 1, 406); (618, 618, 1, 42926);
    (619, 619, 1, 11362); (620, 620, 1, 42925); (623, 623, 1, 412);
    (625, 625, 1, 11374); (626, 626, 1, 413); (629, 629, 1, 415);
    (637, 637, 1, 11364); (640, 640, 1, 422); (642, 642, 1, 42949);
    (643, 643, 1, 425); (647, 647, 1, 42929); (648, 648, 1, 430);
    (649, 649, 1, 580); (650, 651, 1, 433); (652, 652, 1, 581);
    (658, 658, 1, 439); (669, 669, 1, 42930); (670, 670, 1, 42928);
    (837, 837, 1, 921); (881, 883, 2, 880); (887, 887, 1, 886);
    (891, 893, 1, 1021); (940, 940, 1, 902); (941, 943, 1, 904);
    (945, 961, 1, 913); (962, 962, 1, 931); (963, 971, 1, 931);
    (972, 972, 1, 908); (973, 974, 1, 910); (976, 976, 1, 914);
    (977, 977, 1, 920); (981, 981, 1, 934); (982, 982, 1, 928);
    (983, 983, 1, 975); (985, 1007, 2, 984); (1008, 1008, 1, 922);
    (1009, 1009, 1, 929); (1010, 1010, 1, 1017); (1011, 1011, 1, 895);
    (1013, 1013, 1, 917); (1016, 1016, 1, 1015); (1019, 1019, 1, 1018);
    (1072, 1103, 1, 1040); (1104, 1119, 1, 1024); (1121, 1153, 2, 1120);
    (1163, 1215, 2, 1162); (1218, 1230, 2, 1217); (1231, 1231, 1, 1216);
    (1233, 1327, 2, 1232); (1377, 1414, 1, 1329); (4304, 4346, 1, 7312);
    (4349, 4351, 1, 7357); (5112, 5117, 1, 5104); (7296, 7296, 1, 1042);
    (7297, 7297, 1, 1044); (7298, 7298, 1, 1054); (7299, 7300, 1, 1057);
    (7301, 7301, 1, 1058); (7302, 7302, 1, 1066); (7303, 7303, 1, 1122);
    (7304, 7304, 1, 42570); (7545, 7545, 1, 42877); (7549, 7549, 1, 11363);
    (7566, 7566, 1, 42950); (7681, 7829, 2, 7680); (7835, 7835, 1, 7776);
    (7841, 7935, 2, 7840); (7936, 7943, 1, 7944); (7952, 7957, 1, 7960);
    (7968, 7975, 1, 7976); (7984, 7991, 1, 7992); (8000, 8005, 1, 8008);
    (8017, 8023, 2, 8025); (8032, 8039, 1, 8040); (8048, 8049, 1, 8122);
    (8050, 8053, 1, 8136); (8054, 8055, 1, 8154); (8056, 8057, 1, 8184);
    (8058, 8059, 1, 8170); (8060, 8061, 1, 8186); (8112, 8113, 1, 8120);
    (8126, 8126, 1, 921); (8144, 8145, 1, 8152); (8160, 8161, 1, 8168);
    (8165, 8165, 1, 8172); (8526, 8526, 1, 8498); (8560, 8575, 1, 8544);
    (8580, 8580, 1, 8579); (9424, 9449, 1, 9398); (11312, 11359, 1, 11264);
    (11361, 11361, 1, 11360); (11365, 11365, 1, 570); (11366, 11366, 1, 574);
    (11368, 11372, 2, 11367); (11379, 11379, 1, 11378);
    (11382, 11382, 1, 11381); (11393, 11491, 2, 11392);
    (11500, 11502, 2, 11499); (11507, 11507, 1, 11506);
    (11520, 11557, 1, 4256); (11559, 11559, 1, 4295); (11565, 11565, 1, 4301);
    (42561, 42605, 2, 42560); (42625, 42651, 2, 42624);
    (42787, 42799, 2, 42786); (42803, 42863, 2, 42802);
    (42874, 42876, 2, 42873); (42879, 42887, 2, 42878);
    (42892, 42892, 1, 42891); (42897, 42899, 2, 42896);
    (42900, 42900, 1, 42948); (42903, 42921, 2, 42902);
    (42933, 42947, 2, 42932); (42952, 42954, 2, 42951);
    (42961, 42961, 1, 42960); (42967, 42969, 2, 42966);
    (42998, 42998, 1, 42997); (43859, 43859, 1, 42931);
    (43888, 43967, 1, 5024); (65345, 65370, 1, 65313);
    (66600, 66639, 1, 66560); (66776, 66811, 1, 66736);
    (66967, 66977, 1, 66928); (66979, 66993, 1, 66940);
    (66995, 67001, 1, 66956); (67003, 67004, 1, 66964);
    (68800, 68850, 1, 68736); (71872, 71903, 1, 71840);
    (93792, 93823, 1, 93760); (125218, 125251, 1, 125184)
  ]%N.

Definition upper_special : list (N * list N) :=
  [
    (223, [83; 83]); (329, [700; 78]); (496, [74; 780]);
    (912, [921; 776; 769]); (944, [933; 776; 769]); (1415, [1333; 1362]);
    (7830, [72; 817]); (7831, [84; 776]); (7832, [87; 778]);
    (7833, [89; 778]); (7834, [65; 702]); (8016, [933; 787]);
    (8018, [933; 787; 768]); (8020, [933; 787; 769]); (8022, [933; 787; 834]);
    (8064, [7944; 921]); (8065, [7945; 921]); (8066, [7946; 921]);
    (8067, [7947; 921]); (8068, [7948; 921]); (8069, [7949; 921]);
    (8070, [7950; 921]); (8071, [7951; 921]); (8072, [7944; 921]);
    (8073, [7945; 921]); (8074, [7946; 921]); (8075, [7947; 921]);
    (8076, [7948; 921]); (8077, [7949; 921]); (8078, [7950; 921]);
    (8079, [7951; 921]); (8080, [7976; 921]); (8081, [7977; 921]);
    (8082, [7978; 921]); (8083, [7979; 921]); (8084, [7980; 921]);
    (8085, [7981; 921]); (8086, [7982; 921]); (8087, [7983; 921]);
    (8088, [7976; 921]); (8089, [7977; 921]); (8090, [7978; 921]);
    (8091, [7979; 921]); (8092, [7980; 921]); (8093, [7981; 921]);
    (8094, [7982; 921]); (8095, [7983; 921]); (8096, [8040; 921]);
    (8097, [8041; 921]); (8098, [8042; 921]); (8099, [8043; 921]);
    (8100, [8044; 921]); (8101, [8045; 921]); (8102, [8046; 921]);
    (8103, [8047; 921]); (8104, [8040; 921]); (8105, [8041; 921]);
    (8106, [8042; 921]); (8107, [8043; 921]); (8108, [8044; 921]);
    (8109, [8045; 921]); (8110, [8046; 921]); (8111, [8047; 921]);
    (8114, [8122; 921]); (8115, [913; 921]); (8116, [902; 921]);
    (8118, [913; 834]); (8119, [913; 834; 921]); (8124, [913; 921]);
    (8130, [8138; 921]); (8131, [919; 921]); (8132, [905; 921]);
    (8134, [919; 834]); (8135, [919; 834; 921]); (8140, [919; 921]);
    (8146, [921; 776; 768]); (8147, [921; 776; 769]); (8150, [921; 834]);
    (8151, [921; 776; 834]); (8162, [933; 776; 768]); (8163, [933; 776; 769]);
    (8164, [929; 787]); (8166, [933; 834]); (8167, [933; 776; 834]);
    (8178, [8186; 921]); (8179, [937; 921]); (8180, [911; 921]);
    (8182, [937; 834]); (8183, [937; 834; 921]); (8188, [937; 921]);
    (64256, [70; 70]); (64257, [70; 73]); (64258, [70; 76]);
    (64259, [70; 70; 73]); (64260, [70; 70; 76]); (64261, [83; 84]);
    (64262, [83; 84]); (64275, [1348; 1350]); (64276, [1348; 1333]);
    (64277, [1348; 1339]); (64278, [1358; 1350]); (64279, [1348; 1341])
  ]%N.


Definition in_range (c : char) (r : N * N) : bool :=
  let (first, last) := r in ((first <=? c) && (c <=? last))%N.

Definition in_run (c : char) (r : N * N * N * N) : bool :=
  let '(first, last, step, _) := r in
  ((first <=? c) && (c <=? last) && ((c - first) mod step =? 0))%N.

Definition isword_other (c : char) : bool := existsb (in_range c) word_ranges.

Definition upper_other (c : char) : list char :=
  match find (fun e => N.eqb (fst e) c) upper_special with
  | Some (_, image) => image
  | None =>
      match find (in_run c) upper_runs with
      | Some (first, _, _, image) => [(image + (c - first))%N]
      | None => [c]
      end
  end.

Definition tables : Unicode := Build_Unicode upper_other isword_other.

End CPython.

(** * Lemmas *)

(** ** Characters *)

Lemma isspace_In (c : char) : Py.isspace c = true -> In c Py.space_codes.
Proof.
  unfold Py.isspace. intros H. apply existsb_exists in H.
  destruct H as (d & Hin & E). apply N.eqb_eq in E. now subst d.
Qed.

(** [re.IGNORECASE] identifies a white-space character with no other
    character. *)
Lemma isspace_fold (c : char) : Py.isspace c = true -> Re.fold c = c.
Proof.
  intros H. apply isspace_In in H. unfold Py.space_codes in H.
  repeat (destruct H as [<- | H]; [reflexivity|]). destruct H.
Qed.

Lemma fold_not_space (a c : char) :
  Py.isspace (Re.fold a) = false -> Re.fold c = Re.fold a ->
  Py.isspace c = false.
Proof.
  intros Ha E. destruct (Py.isspace c) eqn:Hc; [|reflexivity].
  rewrite (isspace_fold c Hc) in E. congruence.
Qed.

Lemma fold_backtick (c : char) : Re.fold c = chr "`" -> c = chr "`".
Proof.
  unfold Re.fold, chr. simpl N_of_ascii.
  destruct ((65 <=? c) && (c <=? 90))%N eqn:E1.
  - apply andb_true_iff in E1. destruct E1 as [L1 L2].
    apply N.leb_le in L1, L2. lia.
  - destruct (N.eqb_spec c 383); [discriminate|].
    destruct ((c =? 304) || (c =? 305))%N; [discriminate|].
    destruct (N.eqb_spec c 8490); [discriminate | trivial].
Qed.

(** ** Strings *)

Lemma startswith_lit_at (s p : str) : Py.startswith s p = Re.lit_at false p s.
Proof.
  revert s; induction p as [|a p IH]; intros [|b s]; simpl; try reflexivity.
  now rewrite IH.
Qed.

Lemma lit_at_false_iff (p s : str) :
  Re.lit_at false p s = true <-> begins p s.
Proof.
  unfold begins. revert s; induction p as [|a p IH]; intros s; simpl.
  - split; [now exists s | reflexivity].
  - destruct s as [|b s].
    + split; [discriminate | intros [r H]; discriminate].
    + rewrite andb_true_iff, IH. split.
      * intros [Hab [r ->]]. apply N.eqb_eq in Hab. subst. now exists r.
      * intros [r H]. injection H as -> ->. split; [apply N.eqb_refl | now exists r].
Qed.

Lemma startswith_iff (s p : str) : Py.startswith s p = true <-> begins p s.
Proof. rewrite startswith_lit_at. apply lit_at_false_iff. Qed.

Lemma lit_at_true_iff (p s : str) :
  Re.lit_at true p s = true <-> begins_same_ci p s.
Proof.
  unfold begins_same_ci, same_ci. revert s; induction p as [|a p IH]; intros s; simpl.
  - split; [now exists [], s | reflexivity].
  - destruct s as [|b s].
    + split; [discriminate|].
      intros (w & r & H & Hw). destruct w; discriminate.
    + rewrite andb_true_iff, IH. unfold Re.eq_ci. split.
      * intros [Hab (w & r & -> & Hw)]. apply N.eqb_eq in Hab.
        exists (b :: w), r. simpl. now rewrite Hw, Hab.
      * intros (w & r & H & Hw). destruct w as [|x w]; [discriminate|].
        simpl in *. injection H as -> ->. injection Hw as Hx Hw.
        split; [rewrite Hx; apply N.eqb_refl | now exists w, r].
Qed.


(** ** [strip] *)

Lemma lstrip_split (s : str) : exists l, s = l ++ Py.lstrip s /\ blank l.
Proof.
  induction s as [|c s (l & IH & Hl)]; simpl.
  - exists []. split; [reflexivity | constructor].
  - destruct (Py.isspace c) eqn:Hc.
    + exists (c :: l). split; [simpl; now f_equal | now constructor].
    + exists []. split; [reflexivity | constructor].
Qed.

Lemma lstrip_head (s : str) c r :
  Py.lstrip s = c :: r -> Py.isspace c = false.
Proof.
  induction s as [|x s IH]; simpl; [discriminate|].
  destruct (Py.isspace x) eqn:Hx; [exact IH|].
  intros H. injection H as -> _. exact Hx.
Qed.

Lemma lstrip_fix (s : str) c :
  Py.isspace c = false -> Py.lstrip (c :: s) = c :: s.
Proof. intros H. simpl. now rewrite H. Qed.

Lemma lstrip_blank (s : str) : blank s -> Py.lstrip s = [].
Proof.
  induction 1 as [|c s Hc _ IH]; simpl; [reflexivity|]. now rewrite Hc.
Qed.

Lemma rstrip_app (a b : str) :
  Py.rstrip (a ++ b) =
  match Py.rstrip b with [] => Py.rstrip a | _ => a ++ Py.rstrip b end.
Proof.
  induction a as [|x a IH]; simpl.
  - now destruct (Py.rstrip b).
  - rewrite IH. destruct (Py.rstrip b) as [|y r]; [reflexivity|].
    now destruct a.
Qed.

Lemma rstrip_snoc (a : str) c :
  Py.rstrip (a ++ [c]) = if Py.isspace c then Py.rstrip a else a ++ [c].
Proof. rewrite rstrip_app. simpl. now destruct (Py.isspace c). Qed.

Lemma rstrip_split (s : str) : exists r, s = Py.rstrip s ++ r /\ blank r.
Proof.
  induction s as [|c s (r & IH & Hr)]; simpl.
  - exists []. split; [reflexivity | constructor].
  - destruct (Py.rstrip s) as [|y t] eqn:E.
    + simpl in IH. subst s. destruct (Py.isspace c) eqn:Hc.
      * exists (c :: r). split; [reflexivity | now constructor].
      * exists r. now split.
    + exists r. split; [simpl; now f_equal | exact Hr].
Qed.

Lemma rstrip_blank (s : str) : blank s -> Py.rstrip s = [].
Proof.
  induction 1 as [|c s Hc _ IH]; simpl; [reflexivity|]. now rewrite IH, Hc.
Qed.

Lemma rstrip_nil_blank (s : str) : Py.rstrip s = [] -> blank s.
Proof.
  intros H. destruct (rstrip_split s) as (r & E & Hr).
  rewrite H in E. simpl in E. now subst.
Qed.

(** [rstrip] keeps the first character of a text it does not erase. *)
Lemma rstrip_head (s : str) c r :
  Py.rstrip s = c :: r -> exists r', s = c :: r'.
Proof.
  destruct s as [|x s]; simpl; [discriminate|].
  destruct (Py.rstrip s).
  - destruct (Py.isspace x); [discriminate|].
    intros H. injection H as -> _. now exists s.
  - intros H. injection H as -> _. now exists s.
Qed.

Lemma strip_blank (s : str) : blank s -> Py.strip s = [].
Proof. intros H. unfold Py.strip. now rewrite (lstrip_blank _ H). Qed.

Lemma strip_nil_blank (s : str) : Py.strip s = [] -> blank s.
Proof.
  unfold Py.strip. intros H. apply rstrip_nil_blank in H.
  destruct (lstrip_split s) as (l & E & Hl). rewrite E.
  apply Forall_app. now split.
Qed.

Lemma strip_head (s : str) c r :
  Py.strip s = c :: r -> Py.isspace c = false.
Proof.
  unfold Py.strip. intros H. destruct (rstrip_head _ _ _ H) as (r' & E).
  exact (lstrip_head _ _ _ E).
Qed.

Lemma count_app c (a b : str) : Py.count c (a ++ b) = Py.count c a + Py.count c b.
Proof. induction a as [|x a IH]; simpl; [reflexivity|]. rewrite IH. lia. Qed.

Lemma count_blank c (s : str) :
  Py.isspace c = false -> blank s -> Py.count c s = 0.
Proof.
  intros Hc. induction 1 as [|x s Hx _ IH]; simpl; [reflexivity|].
  rewrite IH. destruct (N.eqb_spec x c); [congruence | reflexivity].
Qed.

Lemma strip_split (s : str) :
  exists l r, s = l ++ Py.strip s ++ r /\ blank l /\ blank r.
Proof.
  destruct (lstrip_split s) as (l & E & Hl).
  destruct (rstrip_split (Py.lstrip s)) as (r & E' & Hr).
  exists l, r. unfold Py.strip. now rewrite <- E', <- E.
Qed.

Lemma count_strip c (s : str) :
  Py.isspace c = false -> Py.count c (Py.strip s) = Py.count c s.
Proof.
  intros Hc. destruct (strip_split s) as (l & r & E & Hl & Hr).
  rewrite E at 2. rewrite !count_app, (count_blank _ _ Hc Hl), (count_blank _ _ Hc Hr).
  lia.
Qed.

Lemma truthy_strip_not_blank (s : str) :
  ~ blank s -> Py.truthy s = true /\ Py.truthy (Py.strip s) = true.
Proof.
  intros N. split.
  - destruct s; [exfalso; apply N; constructor | reflexivity].
  - destruct (Py.strip s) eqn:E; [|reflexivity].
    exfalso. apply N. now apply strip_nil_blank.
Qed.


Lemma count_pos_truthy c (s : str) : 0 < Py.count c s -> Py.truthy s = true.
Proof. destruct s; simpl; [lia | reflexivity]. Qed.

(** ** [in] and [count] *)

Lemma contains_unfold (p s : str) :
  Py.contains p s =
  Py.startswith s p || match s with [] => false | _ :: s' => Py.contains p s' end.
Proof. now destruct s. Qed.

Lemma contains_iff (p s : str) : Py.contains p s = true <-> occurs p s.
Proof.
  unfold occurs. induction s as [|c s IH]; rewrite contains_unfold;
    rewrite orb_true_iff, startswith_iff; unfold begins.
  - split.
    + intros [(r & E) | H]; [|discriminate]. now exists [], r.
    + intros (a & b & E). left. destruct a; [now exists b | discriminate].
  - rewrite IH. split.
    + intros [(r & E) | (a & b & E)]; [now exists [], r|].
      exists (c :: a), b. now rewrite E.
    + intros (a & b & E). destruct a as [|x a]; [left; now exists b|].
      right. injection E as -> E. now exists a, b.
Qed.

Lemma has_comment_iff (s : str) :
  Py.contains (lit "--") s || Py.contains (lit "/*") s = true <-> has_comment s.
Proof. unfold has_comment. now rewrite orb_true_iff, !contains_iff. Qed.

Lemma not_occurs_run (p s : str) : Py.contains p s = false -> ~ occurs p s.
Proof. intros H O. apply contains_iff in O. congruence. Qed.



Lemma hd_rev_cons (c : char) (a : str) :
  hd_error (rev (c :: a)) =
  match hd_error (rev a) with Some x => Some x | None => Some c end.
Proof. simpl. now destruct (rev a). Qed.

(** ** The first token *)




(** * The validators *)

Section Validation.

Context {U : Unicode}.


Lemma upper_truthy (s : str) : Py.upper s <> [] -> Py.truthy s = true.
Proof. destruct s; [now intros H | reflexivity]. Qed.

(** ** The keyword scan finds exactly the whole words *)

Lemma keyword_hd kw : keyword_like kw -> Re.isword_opt (hd_error kw) = true.
Proof.
  intros (Hne & Hw). destruct kw as [|c kw]; [contradiction|].
  simpl. now inversion Hw.
Qed.

Lemma keyword_last kw : keyword_like kw -> Re.isword_opt (hd_error (rev kw)) = true.
Proof.
  intros (Hne & Hw). apply Forall_rev in Hw.
  destruct (rev kw) as [|c r] eqn:E.
  - apply (f_equal (@rev char)) in E. rewrite rev_involutive in E. contradiction.
  - simpl. now inversion Hw.
Qed.

Lemma word_at_iff kw prev (s : str) :
  keyword_like kw ->
  (Re.word_at kw prev s = true <->
   exists r, s = kw ++ r /\ Re.isword_opt prev = false
             /\ Re.isword_opt (hd_error r) = false).
Proof.
  intros K. unfold Re.word_at. rewrite !andb_true_iff, lit_at_false_iff.
  unfold begins. split.
  - intros [[Hb (r & ->)] He]. exists r.
    rewrite firstn_app, Nat.sub_diag, firstn_all, app_nil_r in He.
    rewrite skipn_app, Nat.sub_diag, skipn_all, app_nil_l in He.
    simpl in He. unfold Re.boundary in *. rewrite (keyword_last _ K) in He.
    assert (Hh : Re.isword_opt (hd_error (kw ++ r)) = true).
    { destruct kw; [now destruct K | apply (keyword_hd _ K)]. }
    rewrite Hh in Hb.
    repeat split.
    + now destruct (Re.isword_opt prev).
    + now destruct (Re.isword_opt (hd_error r)).
  - intros (r & -> & Hp & Hr).
    rewrite firstn_app, Nat.sub_diag, firstn_all, app_nil_r.
    rewrite skipn_app, Nat.sub_diag, skipn_all, app_nil_l. simpl.
    unfold Re.boundary. rewrite (keyword_last _ K), Hp, Hr.
    assert (Hh : Re.isword_opt (hd_error (kw ++ r)) = true).
    { destruct kw; [now destruct K | apply (keyword_hd _ K)]. }
    rewrite Hh. repeat split. now exists r.
Qed.

Lemma search_word_from_iff kw (s : str) : forall prev,
  keyword_like kw ->
  (Re.search_word_from kw prev s = true <->
   exists a b, s = a ++ kw ++ b /\ Re.isword_opt (before prev a) = false
               /\ Re.isword_opt (hd_error b) = false).
Proof.
  induction s as [|c s IH]; intros prev K; simpl;
    rewrite orb_true_iff, (word_at_iff _ _ _ K).
  - split.
    + intros [(r & E & Hp & Hr) | H]; [|discriminate]. now exists [], r.
    + intros (a & b & E & Hp & Hr). left.
      destruct a; [|discriminate]. now exists b.
  - rewrite (IH (Some c) K). split.
    + intros [(r & E & Hp & Hr) | (a & b & E & Hp & Hr)].
      * now exists [], r.
      * exists (c :: a), b. rewrite E. repeat split; [|exact Hr].
        unfold before in *. rewrite hd_rev_cons. now destruct (hd_error (rev a)).
    + intros (a & b & E & Hp & Hr). destruct a as [|x a].
      * left. now exists b.
      * right. injection E as -> E. exists a, b. repeat split; [exact E| |exact Hr].
        unfold before in *. rewrite hd_rev_cons in Hp. now destruct (hd_error (rev a)).
Qed.

(** The scan of the source against the notion of the specification. *)
Lemma search_word_iff kw (t : str) :
  keyword_like kw -> (Re.search_word kw t = true <-> whole_word kw t).
Proof.
  intros K. unfold Re.search_word, whole_word.
  rewrite (search_word_from_iff _ _ None K). unfold before.
  split; intros (a & b & E & Hp & Hr); exists a, b;
    (repeat split; [exact E | | exact Hr]);
    now destruct (hd_error (rev a)).
Qed.


Lemma first_keyword_none (kws : list str) (t : str) :
  Forall keyword_like kws ->
  (AIService.first_keyword kws t = None <->
   forall kw, In kw kws -> ~ whole_word kw t).
Proof.
  unfold AIService.first_keyword.
  induction 1 as [|kw kws K _ IH]; simpl.
  - split; [intros _ kw [] | reflexivity].
  - destruct (Re.search_word kw t) eqn:E.
    + split; [discriminate|]. intros H. exfalso.
      apply (H kw); [now left | now apply search_word_iff].
    + rewrite IH. split.
      * intros H k [<- | Hin]; [|now apply H].
        intros W. apply (search_word_iff _ _ K) in W. congruence.
      * intros H k Hin. apply H. now right.
Qed.

Lemma denylist_keyword_like p : Forall keyword_like (denylist p).
Proof.
  destruct p; simpl;
    repeat (constructor;
            [ split; [discriminate | repeat constructor] | ]);
    constructor.
Qed.

Lemma denylist_In_keyword_like p kw : In kw (denylist p) -> keyword_like kw.
Proof.
  intros Hin. pose proof (denylist_keyword_like p) as F.
  rewrite Forall_forall in F. now apply F.
Qed.




Lemma no_keyword_scan p (s : str) :
  no_keyword p s -> AIService.first_keyword (denylist p) (scanned p s) = None.
Proof. intros N. now apply first_keyword_none; [apply denylist_keyword_like|]. Qed.

Lemma scan_no_keyword p (s : str) :
  AIService.first_keyword (denylist p) (scanned p s) = None -> no_keyword p s.
Proof.
  intros E. exact (proj1 (first_keyword_none _ _ (denylist_keyword_like p)) E).
Qed.


Lemma not_whole_word_run kw (t : str) :
  keyword_like kw -> Re.search_word kw t = false -> ~ whole_word kw t.
Proof. intros K H W. apply (search_word_iff _ _ K) in W. congruence. Qed.

Lemma no_keyword_run p (s : str) :
  forallb (fun kw => negb (Re.search_word kw (scanned p s))) (denylist p) = true ->
  no_keyword p s.
Proof.
  intros H kw Hin. rewrite forallb_forall in H. specialize (H kw Hin).
  apply not_whole_word_run; [exact (denylist_In_keyword_like _ _ Hin)|].
  now destruct (Re.search_word kw (scanned p s)).
Qed.

(** ** The guards of the validators, in the terms of the specification *)

Lemma error_guard_iff (s : str) :
  Py.startswith (Py.upper s) (lit "ERROR:") = true <-> begins_ci (lit "ERROR:") s.
Proof. apply startswith_iff. Qed.

Lemma select_guard_iff (s : str) :
  Py.startswith (Py.strip (Py.upper s)) (lit "SELECT") = true
  <-> leading_select s.
Proof. apply startswith_iff. Qed.

Lemma begins_ci_run (p s : str) :
  Py.startswith (Py.upper s) (Py.upper p) = true -> begins_ci p s.
Proof. apply startswith_iff. Qed.




Lemma leading_select_truthy (s : str) : leading_select s -> Py.truthy s = true.
Proof.
  intros (rest & E). apply upper_truthy. intros N. rewrite N in E. discriminate E.
Qed.

(** A text that begins, white space skipped, with SELECT does not begin
    with ERROR:. *)
Lemma select_not_error (s : str) :
  leading_select s -> ~ begins_ci (lit "ERROR:") s.
Proof.
  intros (rest & E) (rest' & E').
  destruct (strip_split (Py.upper s)) as (l & r & Es & Hl & _).
  rewrite E in Es. rewrite Es in E'. destruct l as [|x l].
  - discriminate E'.
  - injection E' as -> _. inversion Hl as [|? ? Hx _]. discriminate Hx.
Qed.

(** The strict validator, as a chain of guards. *)
Lemma validate_strict (s : str) :
  validate s STRICT_READ_ONLY =
  if negb (Py.truthy s) then Invalid empty_reason
  else if Py.startswith (Py.upper s) (lit "ERROR:") then Invalid s
  else if negb (Py.startswith (Py.strip (Py.upper s)) (lit "SELECT"))
  then Invalid not_select_reason
  else match AIService.first_keyword AIService.FORBIDDEN_KEYWORDS (Py.upper s) with
       | Some k => Invalid (keyword_reason STRICT_READ_ONLY k)
       | None =>
           if 1 <? Py.count (chr ";") s then Invalid multiple_reason
           else if Py.contains (lit "--") s || Py.contains (lit "/*") s
           then Invalid comments_reason
           else Valid s
       end.
Proof.
  unfold validate, AIService.validate_sql.
  destruct (negb (Py.truthy s)); [reflexivity|].
  destruct (Py.startswith (Py.upper s) (lit "ERROR:")); [reflexivity|].
  destruct (negb (Py.startswith (Py.strip (Py.upper s)) (lit "SELECT")));
    [reflexivity|].
  destruct (AIService.first_keyword _ _); [reflexivity|].
  destruct (1 <? Py.count (chr ";") s); [reflexivity|].
  now destruct (Py.contains (lit "--") s || Py.contains (lit "/*") s).
Qed.

(** The checks of the manual handler, as a chain of guards. *)
Lemma validate_manual (s : str) :
  validate s RESTRICTED_MUTATION =
  if negb (Py.truthy s) then Invalid (lit "No SQL query provided")
  else if negb (Py.truthy (Py.strip s)) then Invalid empty_reason
  else match AIService.first_keyword App.dangerous_keywords
               (Py.upper (Py.strip s)) with
       | Some k => Invalid (keyword_reason RESTRICTED_MUTATION k)
       | None =>
           if 1 <? Py.count (chr ";") (Py.strip s) then Invalid multiple_reason
           else Valid (Py.strip s)
       end.
Proof.
  unfold validate, App.execute_manual_query.
  destruct (negb (Py.truthy s)); [reflexivity|].
  destruct (negb (Py.truthy (Py.strip s))); [reflexivity|].
  destruct (AIService.first_keyword _ _); [reflexivity|].
  now destruct (1 <? Py.count (chr ";") (Py.strip s)).
Qed.

(** The manual handler hands over the trimmed text of a candidate that
    is not blank, holds no keyword of its list as a whole word, and has at
    most one semicolon. *)
Lemma manual_executes_when (s : str) :
  ~ blank s -> no_keyword RESTRICTED_MUTATION s -> Py.count (chr ";") s <= 1 ->
  App.execute_manual_query s = App.Execute (Py.strip s).
Proof.
  intros NB N C. unfold App.execute_manual_query.
  destruct (truthy_strip_not_blank s NB) as [T TS]. rewrite T, TS.
  cbn [negb].
  pose proof (no_keyword_scan RESTRICTED_MUTATION _ N) as E.
  simpl denylist in E. simpl scanned in E. rewrite E, (count_strip (chr ";") s eq_refl).
  assert (L : (1 <? Py.count (chr ";") s) = false) by (apply Nat.ltb_ge; lia).
  now rewrite L.
Qed.

(** * What the validators reject, and what they let through *)


(** C2 (amended).  A candidate with more than one semicolon is Invalid
    under both policies; the reason is the one about multiple statements
    when no earlier guard answers, that is when the candidate reaches the
    keyword scan and no keyword of the policy's denylist is a whole word of
    it. *)
Theorem C2_multiple_statements (p : ValidationPolicy) (s : str) :
  1 < Py.count (chr ";") s ->
  (exists reason, validate s p = Invalid reason) /\
  (reaches_keyword_scan p s -> no_keyword p s ->
   validate s p = Invalid multiple_reason).
Proof.
  intros C.
  assert (T : Py.truthy s = true) by (apply (count_pos_truthy (chr ";")); lia).
  assert (L : (1 <? Py.count (chr ";") s) = true) by now apply Nat.ltb_lt.
  destruct p.
  - rewrite validate_strict, T, L. cbn [negb]. split.
    + destruct (Py.startswith (Py.upper s) (lit "ERROR:"));
        [eexists; reflexivity|].
      destruct (negb (Py.startswith (Py.strip (Py.upper s)) (lit "SELECT")));
        [eexists; reflexivity|].
      destruct (AIService.first_keyword _ _); eexists; reflexivity.
    + intros [NE SE] N. apply select_guard_iff in SE. rewrite SE.
      destruct (Py.startswith (Py.upper s) (lit "ERROR:")) eqn:G.
      { apply error_guard_iff in G. contradiction. }
      pose proof (no_keyword_scan STRICT_READ_ONLY s N) as E.
      simpl denylist in E. simpl scanned in E. cbn [negb]. now rewrite E.
  - assert (CS : Py.count (chr ";") (Py.strip s) = Py.count (chr ";") s)
      by now apply count_strip.
    assert (TS : Py.truthy (Py.strip s) = true)
      by (apply (count_pos_truthy (chr ";")); lia).
    rewrite validate_manual, T, TS, CS, L. cbn [negb]. split.
    + destruct (AIService.first_keyword _ _); eexists; reflexivity.
    + intros _ N.
      pose proof (no_keyword_scan RESTRICTED_MUTATION _ N) as E.
      simpl denylist in E. simpl scanned in E. now rewrite E.
Qed.



(** C5 (amended).  Under the strict policy a candidate that begins with
    ERROR:, in any letter case, is Invalid and the reason is the candidate
    itself. *)
Theorem C5_sentinel_strict (s : str) :
  begins_ci (lit "ERROR:") s -> validate s STRICT_READ_ONLY = Invalid s.
Proof.
  intros B. rewrite validate_strict.
  assert (T : Py.truthy s = true).
  { destruct B as (r & E). apply upper_truthy. rewrite E. discriminate. }
  apply error_guard_iff in B. now rewrite T, B.
Qed.



End Validation.



(** C2 as stated fails: two semicolons, and the reason is the one of the
    keyword scan, which runs before the count. *)
Lemma C2_counterexample :
  let U := CPython.tables in
  let s := lit "SELECT * FROM employees; DROP TABLE employees;" in
  1 < Py.count (chr ";") s /\
  validate s STRICT_READ_ONLY
  = Invalid (keyword_reason STRICT_READ_ONLY (lit "DROP")) /\
  validate s STRICT_READ_ONLY <> Invalid multiple_reason.
Proof.
  intros U s. split; [|split].
  - vm_compute. lia.
  - reflexivity.
  - vm_compute. discriminate.
Qed.

Lemma C2_witness :
  let U := CPython.tables in
  let s := lit "SELECT 1; SELECT 2;" in
  1 < Py.count (chr ";") s /\
  reaches_keyword_scan RESTRICTED_MUTATION s /\
  no_keyword RESTRICTED_MUTATION s /\
  (exists reason, validate s RESTRICTED_MUTATION = Invalid reason) /\
  validate s RESTRICTED_MUTATION = Invalid multiple_reason.
Proof.
  intros U s.
  assert (C : 1 < Py.count (chr ";") s) by (vm_compute; lia).
  assert (N : no_keyword RESTRICTED_MUTATION s) by now apply no_keyword_run.
  assert (R : reaches_keyword_scan RESTRICTED_MUTATION s).
  { intros B. inversion B as [|? ? H _]. discriminate H. }
  destruct (C2_multiple_statements RESTRICTED_MUTATION s C) as [H1 H2].
  exact (conj C (conj R (conj N (conj H1 (H2 R N))))).
Defined.





(** C5 as stated fails for the manual policy: its checks have no guard on
    the sentinel and let it through. *)
Lemma C5_counterexample :
  let U := CPython.tables in
  begins_ci (lit "ERROR:") sentinel /\
  validate sentinel RESTRICTED_MUTATION = Valid sentinel /\
  validate sentinel RESTRICTED_MUTATION <> Invalid sentinel.
Proof.
  intros U. split; [|split].
  - now apply begins_ci_run.
  - reflexivity.
  - vm_compute. discriminate.
Qed.

Lemma C5_witness :
  let U := CPython.tables in
  begins_ci (lit "ERROR:") sentinel /\
  validate sentinel STRICT_READ_ONLY = Invalid sentinel.
Proof.
  intros U.
  assert (B : begins_ci (lit "ERROR:") sentinel) by now apply begins_ci_run.
  exact (conj B (C5_sentinel_strict sentinel B)).
Defined.


(** * The sanitizer *)

(** ** [re.sub] where the pattern does not occur *)

(** A pattern that matches at no position of [s] leaves [s] as it is. *)
Lemma sub_no_match (m : str -> option nat) (s : str) :
  (forall a b, s = a ++ b -> m b = None) -> Re.sub m s = s.
Proof.
  unfold Re.sub. induction s as [|c s IH]; intros H; simpl; [reflexivity|].
  rewrite (H [] (c :: s) eq_refl). f_equal. apply IH.
  intros a b E. apply (H (c :: a) b). now rewrite E.
Qed.

Lemma same_ci_refl (p : str) : same_ci p p.
Proof. reflexivity. Qed.

Lemma lit_at_occurs_ci ci (p a b : str) :
  Re.lit_at ci p b = true -> occurs_ci p (a ++ b).
Proof.
  intros H. destruct ci.
  - apply lit_at_true_iff in H. destruct H as (w & r & -> & Hu).
    now exists a, w, r.
  - apply lit_at_false_iff in H. destruct H as (r & ->).
    exists a, p, r. split; [reflexivity | apply same_ci_refl].
Qed.

Lemma sub_lit_spaces_absent ci (p s : str) :
  ~ occurs_ci p s -> Re.sub (Re.lit_spaces ci p) s = s.
Proof.
  intros N. apply sub_no_match. intros a b ->. unfold Re.lit_spaces.
  destruct (Re.lit_at ci p b) eqn:E; [|reflexivity].
  elim N. now apply (lit_at_occurs_ci ci).
Qed.

Lemma sub_lit_only_absent ci (p s : str) :
  ~ occurs_ci p s -> Re.sub (Re.lit_only ci p) s = s.
Proof.
  intros N. apply sub_no_match. intros a b ->. unfold Re.lit_only.
  destruct (Re.lit_at ci p b) eqn:E; [|reflexivity].
  elim N. now apply (lit_at_occurs_ci ci).
Qed.

(** A text that is [c :: p] up to letter case begins with a character
    other than white space, when [c] is none. *)
Lemma same_ci_head c (p w : str) :
  Py.isspace (Re.fold c) = false -> same_ci (c :: p) w ->
  exists x r, w = x :: r /\ Py.isspace x = false.
Proof.
  intros Hc Hu. destruct w as [|x w]; [discriminate|].
  injection Hu as Hx _. exists x, w. split; [reflexivity|].
  exact (fold_not_space c x Hc Hx).
Qed.

(** A literal that begins with a character other than white space does
    not occur in a blank text. *)
Lemma blank_not_occurs_ci c (p s : str) :
  Py.isspace (Re.fold c) = false -> blank s -> ~ occurs_ci (c :: p) s.
Proof.
  intros Hc B (pre & w & post & -> & Hu).
  apply Forall_app in B. destruct B as [_ B].
  apply Forall_app in B. destruct B as [B _].
  destruct (same_ci_head c p w Hc Hu) as (x & r & -> & Hx).
  inversion B; subst. congruence.
Qed.

Lemma remove_fences_blank (s : str) : blank s -> AIService.remove_fences s = s.
Proof.
  intros B. unfold AIService.remove_fences.
  rewrite (sub_lit_spaces_absent true (lit "```sql") s)
    by now apply (blank_not_occurs_ci (chr "`") (lit "``sql")).
  rewrite (sub_lit_spaces_absent true (lit "```mysql") s)
    by now apply (blank_not_occurs_ci (chr "`") (lit "``mysql")).
  now apply sub_lit_spaces_absent, (blank_not_occurs_ci (chr "`") (lit "``")).
Qed.

Lemma remove_prefixes_blank (s : str) : blank s -> AIService.remove_prefixes s = s.
Proof.
  intros B. unfold AIService.remove_prefixes.
  assert (H : Forall (fun p => ~ occurs_ci p s) AIService.prefixes_to_remove).
  { repeat constructor;
      match goal with
      | |- ~ occurs_ci (lit (String ?c ?r)) _ =>
          now apply (blank_not_occurs_ci (chr c) (lit r))
      end. }
  induction H as [|p ps Hp _ IH]; simpl; [reflexivity|].
  now rewrite (sub_lit_only_absent true p s Hp).
Qed.

Lemma unwrap_blank (s : str) : blank s -> AIService.unwrap s = [].
Proof.
  intros B. unfold AIService.unwrap.
  rewrite (remove_fences_blank s B), (remove_prefixes_blank s B).
  now apply strip_blank.
Qed.

(** C9.  The sanitizer maps the empty text and every text made of white
    space only to the empty text; no terminator is appended to an empty
    candidate; and the validator answers the empty candidate with the
    reason for an empty query. *)
Theorem C9_blank_is_empty {U : Unicode} (x : str) :
  (blank x -> AIService.clean_sql_response x = [])
  /\ (AIService.unwrap x = [] -> AIService.clean_sql_response x = [])
  /\ (AIService.clean_sql_response x = [] ->
      AIService.validate_sql (AIService.clean_sql_response x)
      = (false, lit "Empty SQL query")).
Proof.
  assert (E0 : AIService.unwrap x = [] -> AIService.clean_sql_response x = []).
  { intros E. unfold AIService.clean_sql_response. now rewrite E. }
  split; [|split].
  - intros B. apply E0. now apply unwrap_blank.
  - exact E0.
  - intros E. now rewrite E.
Qed.

Lemma C9_witness :
  let U := CPython.tables in
  let x := [32; 9; 10; 133; 160; 8195; 8232; 12288]%N in
  let x' := lit "```sql ```" in
  (blank x /\ AIService.clean_sql_response x = [])
  /\ (AIService.unwrap x' = [] /\ AIService.clean_sql_response x' = [])
  /\ AIService.validate_sql (AIService.clean_sql_response x)
     = (false, lit "Empty SQL query").
Proof.
  intros U x x'.
  assert (B : blank x) by (repeat constructor).
  assert (E : AIService.unwrap x' = []) by reflexivity.
  destruct (C9_blank_is_empty x) as (H1 & _ & H3).
  destruct (C9_blank_is_empty x') as (_ & H2 & _).
  exact (conj (conj B (H1 B)) (conj (conj E (H2 E)) (H3 (H1 B)))).
Defined.

(** ** [re.sub] where the pattern occurs *)

Lemma sub_go_length (m : str -> option nat) (s : str) : forall k,
  length (Re.sub_go m k s) <= length s.
Proof.
  induction s as [|c s IH]; intros k; simpl; [lia|].
  destruct k as [|k]; [|specialize (IH k); lia].
  destruct (m (c :: s)) as [[|n]|]; simpl;
    [specialize (IH 0) | specialize (IH n) | specialize (IH 0)]; lia.
Qed.

Lemma sub_length (m : str -> option nat) (s : str) :
  length (Re.sub m s) <= length s.
Proof. apply sub_go_length. Qed.

(** A match somewhere makes the result strictly shorter. *)
Lemma sub_match_shorter (m : str -> option nat) (s : str) :
  (exists a b n, s = a ++ b /\ b <> [] /\ m b = Some (S n)) ->
  length (Re.sub m s) < length s.
Proof.
  unfold Re.sub. induction s as [|c s IH]; intros (a & b & n & E & Hb & M).
  - destruct a; [|discriminate]. simpl in E. now subst b.
  - simpl. destruct (m (c :: s)) as [[|k]|] eqn:Mc.
    + destruct a as [|x a]; [simpl in E; subst b; congruence|].
      injection E as -> E. simpl. apply -> Nat.succ_lt_mono.
      apply IH. now exists a, b, n.
    + pose proof (sub_go_length m s k). simpl. lia.
    + destruct a as [|x a]; [simpl in E; subst b; congruence|].
      injection E as -> E. simpl. apply -> Nat.succ_lt_mono.
      apply IH. now exists a, b, n.
Qed.

Lemma occurs_ci_lit_at (p s : str) :
  occurs_ci p s -> exists a b, s = a ++ b /\ Re.lit_at true p b = true.
Proof.
  intros (pre & w & post & -> & Hu). exists pre, (w ++ post).
  split; [reflexivity|]. apply lit_at_true_iff. now exists w, post.
Qed.

Lemma lit_at_nonempty ci (p b : str) :
  p <> [] -> Re.lit_at ci p b = true -> b <> [].
Proof. destruct p; [contradiction|]. now destruct b. Qed.

Lemma sub_lit_only_shorter (p s : str) :
  p <> [] -> occurs_ci p s ->
  length (Re.sub (Re.lit_only true p) s) < length s.
Proof.
  intros Hp O. destruct (occurs_ci_lit_at p s O) as (a & b & E & L).
  apply sub_match_shorter. destruct p as [|c p]; [contradiction|].
  exists a, b, (length p). repeat split; [exact E | |].
  - now apply (lit_at_nonempty true (c :: p)).
  - unfold Re.lit_only. now rewrite L.
Qed.

Lemma remove_all_length (ps : list str) : forall s,
  length (remove_all ps s) <= length s.
Proof.
  induction ps as [|p ps IH]; intros s; simpl; [lia|].
  specialize (IH (Re.sub (Re.lit_only true p) s)).
  pose proof (sub_length (Re.lit_only true p) s).
  unfold remove_all in *. lia.
Qed.

Lemma remove_all_absent (ps : list str) (s : str) :
  (forall p, In p ps -> ~ occurs_ci p s) -> remove_all ps s = s.
Proof.
  induction ps as [|p ps IH]; intros H; simpl; [reflexivity|].
  rewrite sub_lit_only_absent by (apply H; now left).
  apply IH. intros q Hq. apply H. now right.
Qed.

Lemma remove_all_fixed (ps : list str) : forall s,
  Forall (fun p => p <> []) ps ->
  length (remove_all ps s) = length s ->
  forall p, In p ps -> ~ occurs_ci p s.
Proof.
  induction ps as [|q ps IH]; intros s F L p Hin; [destruct Hin|].
  inversion F as [|? ? Hq F']; subst. simpl in L.
  pose proof (remove_all_length ps (Re.sub (Re.lit_only true q) s)) as L1.
  pose proof (sub_length (Re.lit_only true q) s) as L2.
  assert (Nq : ~ occurs_ci q s).
  { intros O. pose proof (sub_lit_only_shorter q s Hq O). unfold remove_all in *. lia. }
  destruct Hin as [<- | Hin]; [exact Nq|].
  rewrite (sub_lit_only_absent true q s Nq) in L.
  now apply (IH s F' L).
Qed.

Lemma search_none (m : str -> option nat) (s : str) :
  Re.search m s = None -> forall a b, s = a ++ b -> m b = None.
Proof.
  induction s as [|c s IH]; simpl.
  - destruct (m []) eqn:E; [discriminate|].
    intros _ a b H. destruct a; [|discriminate]. simpl in H. now subst b.
  - destruct (m (c :: s)) eqn:E; [discriminate|].
    intros S a b H. destruct a as [|x a]; [simpl in H; now subst b|].
    injection H as _ H. now apply (IH S a b).
Qed.

Lemma not_occurs_ci_run (p s : str) :
  Re.search (Re.lit_only true p) s = None -> ~ occurs_ci p s.
Proof.
  intros S O. destruct (occurs_ci_lit_at p s O) as (a & b & E & L).
  pose proof (search_none _ _ S a b E) as N.
  unfold Re.lit_only in N. rewrite L in N. discriminate N.
Qed.

Lemma not_begins_same_ci_run (p s : str) :
  Re.lit_at true p s = false -> ~ begins_same_ci p s.
Proof. intros H B. apply lit_at_true_iff in B. congruence. Qed.

(** C7.  The removal of the explanatory prefixes is not anchored at the
    start of the text: in a statement that begins with SELECT, and so with
    none of the listed prefixes, the text [Query:] inside a string literal
    is deleted, by the step on its own and by the sanitizer as a whole. *)
Theorem C7_prefix_removed_inside :
  let s := lit "SELECT note FROM t WHERE note = 'Query: x';" in
  (forall p, In p AIService.prefixes_to_remove -> ~ begins_same_ci p s)
  /\ AIService.remove_prefixes s = lit "SELECT note FROM t WHERE note = ' x';"
  /\ AIService.clean_sql_response s
     = lit "SELECT note FROM t WHERE note = ' x';"
  /\ AIService.remove_prefixes s <> s.
Proof.
  intros s. split; [|split; [|split]].
  - apply Forall_forall. repeat constructor; now apply not_begins_same_ci_run.
  - reflexivity.
  - reflexivity.
  - vm_compute. discriminate.
Qed.

(** ** The statement found by [re.search] *)

Lemma spaces_firstn (s : str) : forall m,
  Re.spaces (firstn m s) = Nat.min m (Re.spaces s).
Proof.
  induction s as [|c s IH]; intros [|m]; simpl; try reflexivity.
  destruct (Py.isspace c); [now rewrite IH | reflexivity].
Qed.

Lemma index_firstn c (r : str) : forall q,
  Re.index c r = Some q -> Re.index c (firstn (S q) r) = Some q.
Proof.
  induction r as [|a r IH]; intros q; simpl; [discriminate|].
  destruct (N.eqb a c); [intros H; now injection H as <-|].
  destruct (Re.index c r) as [i|] eqn:E; simpl; [|discriminate].
  intros H. injection H as <-. now rewrite (IH i eq_refl).
Qed.

Lemma index_lt c (r : str) : forall q,
  Re.index c r = Some q -> q < length r.
Proof.
  induction r as [|a r IH]; intros q; simpl; [discriminate|].
  destruct (N.eqb a c); [intros H; injection H as <-; lia|].
  destruct (Re.index c r) as [i|]; simpl; [|discriminate].
  intros H. injection H as <-. specialize (IH i eq_refl). lia.
Qed.

(** The text up to and with the first [c] ends with [c]. *)
Lemma index_endswith c (r : str) : forall q,
  Re.index c r = Some q -> Py.endswith_char (firstn (S q) r) c = true.
Proof.
  induction r as [|a r IH]; intros q; [discriminate|].
  cbn [Re.index]. destruct (N.eqb a c) eqn:Eac.
  - intros H. injection H as <-. simpl. exact Eac.
  - destruct (Re.index c r) as [i|] eqn:E; simpl; [|discriminate].
    intros H. injection H as <-. specialize (IH i eq_refl).
    destruct r as [|b r]; [discriminate E|].
    exact IH.
Qed.

Lemma endswith_app (a b : str) c :
  b <> [] -> Py.endswith_char (a ++ b) c = Py.endswith_char b c.
Proof.
  intros Hb. induction a as [|x a IH]; [reflexivity|].
  simpl. destruct (a ++ b) eqn:E; [|exact IH].
  destruct a; [simpl in E; contradiction | discriminate].
Qed.

Lemma endswith_snoc (a : str) c : Py.endswith_char (a ++ [c]) c = true.
Proof. rewrite endswith_app by discriminate. apply N.eqb_refl. Qed.

Lemma endswith_split (s : str) c :
  Py.endswith_char s c = true -> exists a, s = a ++ [c].
Proof.
  induction s as [|x s IH]; [discriminate|].
  destruct s as [|y s].
  - simpl. intros H. apply N.eqb_eq in H. subst. now exists [].
  - intros H. destruct (IH H) as (a & E). exists (x :: a). now rewrite E.
Qed.


Lemma lit_at_firstn ci (p s : str) : forall m,
  length p <= m -> Re.lit_at ci p s = true ->
  Re.lit_at ci p (firstn m s) = true.
Proof.
  revert s. induction p as [|a p IH]; intros s m L H; [reflexivity|].
  destruct s as [|b s]; [discriminate|]. destruct m as [|m]; [simpl in L; lia|].
  simpl in *. apply andb_true_iff in H. destruct H as [H1 H2].
  rewrite H1. apply IH; [lia | exact H2].
Qed.

Lemma firstn_plus (a m : nat) (l : str) :
  firstn (a + m) l = firstn a l ++ firstn m (skipn a l).
Proof.
  revert l. induction a as [|a IH]; intros l; [reflexivity|].
  destruct l as [|x l]; simpl; [now rewrite firstn_nil|]. now rewrite IH.
Qed.

Lemma select_stmt_unfold (b : str) :
  Re.select_stmt b =
  if Re.lit_at true (lit "SELECT") b then
    match Re.spaces (skipn 6 b) with
    | 0 => None
    | S k =>
        match skipn (S k) (skipn 6 b) with
        | [] => None
        | c :: r =>
            match Re.index (chr ";") r with
            | Some q => Some (6 + S k + 1 + (q + 1))
            | None =>
                if (2 <=? S k) && N.eqb c (chr ";")
                then Some (6 + S k + 1) else None
            end
        end
    end
  else None.
Proof.
  unfold Re.select_stmt.
  destruct (Re.lit_at true (lit "SELECT") b); [|reflexivity].
  now destruct (Re.spaces (skipn 6 b)).
Qed.

Lemma select_stmt_lit (b : str) (n : nat) :
  Re.select_stmt b = Some n -> Re.lit_at true (lit "SELECT") b = true.
Proof.
  rewrite select_stmt_unfold.
  now destruct (Re.lit_at true (lit "SELECT") b).
Qed.

(** The match of the statement pattern at the start of [b], cut out of
    [b], is matched as a whole by the pattern, and it ends with the
    terminator. *)
Lemma select_stmt_firstn (b : str) (n : nat) :
  Re.select_stmt b = Some n ->
  Re.select_stmt (firstn n b) = Some n
  /\ Py.endswith_char (firstn n b) (chr ";") = true
  /\ firstn n (firstn n b) = firstn n b.
Proof.
  rewrite !select_stmt_unfold.
  destruct (Re.lit_at true (lit "SELECT") b) eqn:L; [|discriminate].
  destruct (Re.spaces (skipn 6 b)) as [|k] eqn:Hk; [discriminate|].
  destruct (skipn (S k) (skipn 6 b)) as [|c r] eqn:Sk; [discriminate|].
  assert (Hr : skipn (6 + S k + 1) b = r).
  { replace (6 + S k + 1) with (1 + (S k + 6)) by lia.
    rewrite <- !skipn_skipn. now rewrite Sk. }
  assert (Hc : skipn (6 + S k) b = c :: r).
  { replace (6 + S k) with (S k + 6) by lia.
    rewrite <- skipn_skipn. exact Sk. }
  assert (Common : forall m,
            6 + S k + 1 <= m ->
            Re.lit_at true (lit "SELECT") (firstn m b) = true
            /\ Re.spaces (skipn 6 (firstn m b)) = S k
            /\ skipn (S k) (skipn 6 (firstn m b))
               = c :: firstn (m - (6 + S k + 1)) r).
  { intros m Hm. split; [apply lit_at_firstn; [simpl; lia | exact L]|].
    rewrite skipn_firstn_comm. split.
    - rewrite spaces_firstn, Hk. lia.
    - rewrite skipn_firstn_comm, Sk.
      replace (m - 6 - S k) with (S (m - (6 + S k + 1))) by lia.
      reflexivity. }
  destruct (Re.index (chr ";") r) as [q|] eqn:Ix.
  - intros H.
    assert (Hn : n = 6 + S k + 1 + (q + 1)) by (injection H as <-; reflexivity).
    clear H. rewrite Hn. clear Hn n.
    destruct (Common (6 + S k + 1 + (q + 1)) ltac:(lia)) as (L' & Sp & Sk').
    rewrite L', Sp, Sk'.
    replace (6 + S k + 1 + (q + 1) - (6 + S k + 1)) with (S q) by lia.
    rewrite (index_firstn _ _ _ Ix). repeat split.
    + rewrite firstn_plus, Hr. replace (q + 1) with (S q) by lia.
      rewrite endswith_app.
      * now apply index_endswith.
      * pose proof (index_lt _ _ _ Ix). destruct r; [simpl in *; lia | discriminate].
    + rewrite firstn_firstn. f_equal. lia.
  - destruct ((2 <=? S k) && N.eqb c (chr ";")) eqn:G; [|discriminate].
    intros H.
    assert (Hn : n = 6 + S k + 1) by (injection H as <-; reflexivity).
    clear H. rewrite Hn. clear Hn n.
    destruct (Common (6 + S k + 1) ltac:(lia)) as (L' & Sp & Sk').
    rewrite L', Sp, Sk', Nat.sub_diag.
    change (firstn 0 r) with (@nil char). cbn [Re.index]. rewrite G.
    repeat split.
    + rewrite firstn_plus, Hc. change (firstn 1 (c :: r)) with [c].
      apply andb_true_iff in G. destruct G as [_ G].
      apply N.eqb_eq in G. subst c. apply endswith_snoc.
    + rewrite firstn_firstn. f_equal. lia.
Qed.

Lemma search_at_start (m : str -> option nat) (g : str) (n : nat) :
  m g = Some n -> Re.search m g = Some (firstn n g).
Proof. intros H. destruct g; simpl; now rewrite H. Qed.

(** A text that begins with SELECT up to letter case begins with a
    character other than white space. *)
Lemma begins_select_head (g : str) :
  begins_same_ci (lit "SELECT") g ->
  exists c r, g = c :: r /\ Py.isspace c = false.
Proof.
  intros (w & rest & -> & Hw).
  destruct (same_ci_head (chr "S") (lit "ELECT") w eq_refl Hw)
    as (x & r & -> & Hx).
  now exists x, (r ++ rest).
Qed.

(** What [re.search] returns for the statement pattern. *)
Lemma search_select_some (s g : str) :
  Re.search Re.select_stmt s = Some g ->
  Re.search Re.select_stmt g = Some g
  /\ Py.endswith_char g (chr ";") = true
  /\ begins_same_ci (lit "SELECT") g.
Proof.
  induction s as [|c s IH]; simpl.
  - destruct (Re.select_stmt []) eqn:E; [discriminate E | discriminate].
  - destruct (Re.select_stmt (c :: s)) as [n|] eqn:E; [|exact IH].
    intros H. injection H as <-.
    destruct (select_stmt_firstn _ _ E) as (E1 & E2 & E3).
    repeat split; [|exact E2|].
    + rewrite (search_at_start _ _ _ E1). now rewrite E3.
    + apply lit_at_true_iff. exact (select_stmt_lit _ _ E1).
Qed.

(** The match that [re.search] returns is a part of the text, and no
    earlier position has a match. *)
Lemma search_select_leftmost (s g : str) :
  Re.search Re.select_stmt s = Some g ->
  exists pre post,
    s = pre ++ g ++ post
    /\ Re.select_stmt (g ++ post) = Some (length g)
    /\ forall a b, pre = a ++ b -> b <> [] ->
                   Re.select_stmt (b ++ g ++ post) = None.
Proof.
  induction s as [|c s IH]; simpl.
  - destruct (Re.select_stmt []) eqn:E; [discriminate E | discriminate].
  - destruct (Re.select_stmt (c :: s)) as [n|] eqn:E.
    + intros H. injection H as <-.
      exists [], (skipn n (c :: s)). rewrite app_nil_l, firstn_skipn.
      split; [reflexivity|]. split.
      * rewrite E. f_equal.
        destruct (select_stmt_firstn _ _ E) as (E1 & _ & _).
        rewrite select_stmt_unfold in E1.
        assert (L : n <= length (c :: s)).
        { destruct (Nat.le_gt_cases n (length (c :: s))) as [L|L]; [exact L|].
          exfalso. rewrite firstn_all2 in E1 by lia.
          rewrite <- select_stmt_unfold, E in E1.
          clear - E L. rewrite select_stmt_unfold in E.
          destruct (Re.lit_at true (lit "SELECT") (c :: s)); [|discriminate].
          destruct (Re.spaces (skipn 6 (c :: s))) as [|k] eqn:Hk; [discriminate|].
          destruct (skipn (S k) (skipn 6 (c :: s))) as [|d r] eqn:Sk;
            [discriminate|].
          assert (Hl : length (skipn (S k) (skipn 6 (c :: s))) = S (length r))
            by now rewrite Sk.
          rewrite !length_skipn in Hl.
          destruct (Re.index (chr ";") r) as [q|] eqn:Ix.
          - pose proof (index_lt _ _ _ Ix). injection E as <-. lia.
          - destruct ((2 <=? S k) && N.eqb d (chr ";")); [|discriminate].
            injection E as <-. lia. }
        now rewrite length_firstn, Nat.min_l.
      * intros a b Hab Hb. destruct a; destruct b; try discriminate.
        now elim Hb.
    + intros H. destruct (IH H) as (pre & post & -> & M & N).
      exists (c :: pre), post. split; [reflexivity|]. split; [exact M|].
      intros a b Hab Hb. destruct a as [|x a].
      * simpl in Hab. subst b. exact E.
      * injection Hab as _ Hab. now apply (N a b).
Qed.

(** ** The sanitizer on its own output *)

Lemma occurs_ci_fence (p y : str) :
  occurs_ci (lit "```" ++ p) y -> occurs (lit "```") y.
Proof.
  intros (pre & w & post & -> & Hu).
  destruct w as [|a [|b [|c w]]]; try discriminate Hu.
  injection Hu as Ha Hb Hc _.
  apply fold_backtick in Ha, Hb, Hc. subst.
  now exists pre, (w ++ post).
Qed.

Lemma remove_fences_absent (y : str) :
  ~ occurs (lit "```") y -> AIService.remove_fences y = y.
Proof.
  intros N. unfold AIService.remove_fences.
  rewrite (sub_lit_spaces_absent true (lit "```sql") y)
    by (intros O; apply N; exact (occurs_ci_fence (lit "sql") y O)).
  rewrite (sub_lit_spaces_absent true (lit "```mysql") y)
    by (intros O; apply N; exact (occurs_ci_fence (lit "mysql") y O)).
  apply sub_lit_spaces_absent.
  intros O. apply N. exact (occurs_ci_fence [] y O).
Qed.

Lemma rstrip_endswith (y : str) d :
  Py.isspace d = false -> Py.endswith_char y d = true -> Py.rstrip y = y.
Proof.
  intros Hd E. destruct (endswith_split y d E) as (a & ->).
  now rewrite rstrip_snoc, Hd.
Qed.

Lemma cleaned_strip (y : str) : cleaned y -> Py.strip y = y.
Proof.
  intros [-> | [(c & r & -> & Hc) E]]; [reflexivity|].
  unfold Py.strip. rewrite (lstrip_fix _ _ Hc).
  now apply (rstrip_endswith _ (chr ";")).
Qed.

Lemma cleaned_final (y : str) :
  cleaned y ->
  (if Py.truthy y && negb (Py.endswith_char y (chr ";"))
   then y ++ lit ";" else y) = y.
Proof.
  intros [-> | [_ E]]; [reflexivity|]. rewrite E. now rewrite andb_false_r.
Qed.

(** What the sanitizer returns: the statement it found, or the trimmed
    text with a terminator at its end. *)
Lemma clean_cases (x : str) :
  let t := AIService.unwrap x in
  let y := AIService.clean_sql_response x in
  cleaned y /\
  (forall g, Re.search Re.select_stmt t = Some g ->
             y = g /\ Re.search Re.select_stmt y = Some y).
Proof.
  intros t y. unfold y, AIService.clean_sql_response. fold t.
  destruct (Re.search Re.select_stmt t) as [g|] eqn:S.
  - destruct (search_select_some t g S) as (Sg & Eg & Hg).
    rewrite Eg, andb_false_r. split.
    + right. split; [now apply begins_select_head | exact Eg].
    + intros g' H. injection H as <-. now split.
  - split; [|discriminate].
    destruct t as [|c r] eqn:T; [now left|]. right.
    assert (Hc : Py.isspace c = false).
    { apply (strip_head (AIService.remove_prefixes (AIService.remove_fences x)) c r).
      exact T. }
    cbn [Py.truthy andb].
    destruct (Py.endswith_char (c :: r) (chr ";")) eqn:E; cbn [negb].
    + split; [now exists c, r | exact E].
    + split; [now exists c, (r ++ lit ";")|].
      change (c :: r) with ([c] ++ r). rewrite <- app_assoc.
      change (lit ";") with [chr ";"].
      rewrite app_assoc. apply endswith_snoc.
Qed.

(** C6 (amended).  Cleaning a cleaned text changes nothing when the first
    pass left nothing for a second one to act on: the cleaned text holds no
    fence marker and none of the listed prefixes (in any letter case), and
    either a statement was extracted from the input, or the cleaned text
    holds no SELECT statement other than itself. *)
Theorem C6_clean_idempotent_when (x : str) :
  let y := AIService.clean_sql_response x in
  ~ occurs (lit "```") y ->
  (forall p, In p AIService.prefixes_to_remove -> ~ occurs_ci p y) ->
  (Re.search Re.select_stmt (AIService.unwrap x) <> None
   \/ Re.search Re.select_stmt y = None
   \/ Re.search Re.select_stmt y = Some y) ->
  AIService.clean_sql_response y = y.
Proof.
  intros y NF NP H. destruct (clean_cases x) as [C G]. fold y in C, G.
  assert (E : AIService.unwrap y = y).
  { unfold AIService.unwrap. rewrite (remove_fences_absent y NF).
    change (AIService.remove_prefixes y)
      with (remove_all AIService.prefixes_to_remove y).
    rewrite (remove_all_absent _ y NP). now apply cleaned_strip. }
  assert (S : Re.search Re.select_stmt y = None
              \/ Re.search Re.select_stmt y = Some y).
  { destruct H as [H | H]; [|exact H].
    destruct (Re.search Re.select_stmt (AIService.unwrap x)) as [g|] eqn:Eg;
      [|contradiction].
    right. exact (proj2 (G g eq_refl)). }
  unfold AIService.clean_sql_response. rewrite E.
  destruct S as [S | S]; rewrite S; now apply cleaned_final.
Qed.

(** C6 as stated fails, in three ways: removing a prefix puts a prefix
    together, the appended terminator completes a statement that the first
    pass could not find (whatever the white space behind SELECT), and
    removing a prefix puts a fence together. *)
Lemma C6_counterexample :
  let clean := AIService.clean_sql_response in
  (clean (lit "QQuery:uery:") = lit "Query:;"
   /\ clean (clean (lit "QQuery:uery:")) = lit ";")
  /\ (clean (lit "Sure: SELECT 1") = lit "Sure: SELECT 1;"
      /\ clean (clean (lit "Sure: SELECT 1")) = lit "SELECT 1;")
  /\ (clean (lit "Sure: SELECT" ++ [160%N] ++ lit "1")
      = lit "Sure: SELECT" ++ [160%N] ++ lit "1;"
      /\ clean (clean (lit "Sure: SELECT" ++ [160%N] ++ lit "1"))
         = lit "SELECT" ++ [160%N] ++ lit "1;")
  /\ (clean (lit "``Query:` SELECT 1") = lit "``` SELECT 1;"
      /\ clean (clean (lit "``Query:` SELECT 1")) = lit "SELECT 1;").
Proof. intros clean. repeat split; reflexivity. Qed.

Lemma C6_witness :
  let x := lit "```sql Here's the query: select name from employees; ```" in
  let y := AIService.clean_sql_response x in
  y = lit "select name from employees;" /\
  ~ occurs (lit "```") y /\
  (forall p, In p AIService.prefixes_to_remove -> ~ occurs_ci p y) /\
  Re.search Re.select_stmt (AIService.unwrap x) <> None /\
  AIService.clean_sql_response y = y.
Proof.
  intros x y.
  assert (NF : ~ occurs (lit "```") y) by now apply not_occurs_run.
  assert (NP : forall p, In p AIService.prefixes_to_remove -> ~ occurs_ci p y).
  { apply Forall_forall. repeat constructor; now apply not_occurs_ci_run. }
  assert (S : Re.search Re.select_stmt (AIService.unwrap x) <> None)
    by (vm_compute; discriminate).
  exact (conj eq_refl (conj NF (conj NP (conj S
           (C6_clean_idempotent_when x NF NP (or_introl S)))))).
Defined.

(** * The orchestrator *)

Lemma blank_guard (prompt : str) :
  negb (Py.truthy prompt) || negb (Py.truthy (Py.strip prompt)) = true
  <-> blank prompt.
Proof.
  split.
  - intros H. apply orb_true_iff in H. destruct H as [H | H].
    + destruct prompt; [constructor | discriminate H].
    + apply strip_nil_blank. now destruct (Py.strip prompt).
  - intros B. rewrite (strip_blank _ B). apply orb_true_r.
Qed.

Section Orchestration.

Context {U : Unicode}.

Variable provider : str.
Variable _call_openai _call_gemini : str -> str -> bool * str.

Local Abbreviation adapter := (adapter provider _call_openai _call_gemini).
Local Abbreviation adapter_call := (adapter_call provider).
Local Abbreviation run := (run provider _call_openai _call_gemini).

(** C8.  [generate_sql] answers a blank prompt at once, without any
    call; when the adapter fails it returns the adapter's detail and has
    called neither the sanitizer nor the validator; when the adapter
    succeeds it cleans, then validates, and returns the cleaned statement
    as accepted exactly when the validator passes it, and otherwise the
    cleaned statement with the validator's reason. *)
Theorem C8_orchestration (prompt schema_context : str)
                         (log : list AIService.call) :
  (blank prompt ->
   run prompt schema_context log
   = ((false, [], lit "Empty prompt provided"), log))
  /\ (~ blank prompt ->
      forall detail,
        adapter prompt schema_context = (false, detail) ->
        run prompt schema_context log
        = ((false, [], detail),
           log ++ [adapter_call prompt schema_context]))
  /\ (~ blank prompt ->
      forall raw,
        adapter prompt schema_context = (true, raw) ->
        let sql := AIService.clean_sql_response raw in
        let calls := log ++ [adapter_call prompt schema_context;
                             AIService.call_clean raw;
                             AIService.call_validate sql] in
        (forall message,
           AIService.validate_sql sql = (true, message) ->
           run prompt schema_context log
           = ((true, sql, lit "SQL generated and validated successfully"),
              calls))
        /\ (forall reason,
              AIService.validate_sql sql = (false, reason) ->
              run prompt schema_context log = ((false, sql, reason), calls))).
Proof.
  unfold run, AIService.generate_sql, adapter, adapter_call.
  split; [|split].
  - intros B. apply blank_guard in B. now rewrite B.
  - intros NB detail A.
    destruct (negb (Py.truthy prompt) || negb (Py.truthy (Py.strip prompt)))
      eqn:G; [apply blank_guard in G; contradiction|].
    unfold AIService.bind, AIService.invoke, AIService.ret.
    destruct (Py.eqb provider (lit "openai")); now rewrite A.
  - intros NB raw A. cbv zeta.
    destruct (negb (Py.truthy prompt) || negb (Py.truthy (Py.strip prompt)))
      eqn:G; [apply blank_guard in G; contradiction|].
    unfold AIService.bind, AIService.invoke, AIService.ret.
    split; intros m V;
      destruct (Py.eqb provider (lit "openai")); rewrite A; cbn [negb];
      rewrite V; cbn [negb]; now rewrite <- !app_assoc.
Qed.

End Orchestration.

Lemma C8_witness :
  let U := CPython.tables in
  let gemini_ok (_ _ : str) := (true, lit "```sql SELECT * FROM employees```") in
  let gemini_bad (_ _ : str) := (true, lit "DROP TABLE employees") in
  let failing (_ _ : str) := (false, lit "Gemini API request timed out") in
  let schema := lit "Table: employees" in
  let prompt := lit "Show all employees" in
  run (lit "gemini") failing gemini_ok [32; 160; 8195; 10]%N schema []
  = ((false, [], lit "Empty prompt provided"), [])
  /\ run (lit "gemini") gemini_ok failing prompt schema []
     = ((false, [], lit "Gemini API request timed out"),
        [AIService.call_gemini prompt schema])
  /\ run (lit "gemini") failing gemini_ok prompt schema []
     = ((true, lit "SELECT * FROM employees;",
         lit "SQL generated and validated successfully"),
        [AIService.call_gemini prompt schema;
         AIService.call_clean (lit "```sql SELECT * FROM employees```");
         AIService.call_validate (lit "SELECT * FROM employees;")])
  /\ run (lit "openai") gemini_bad failing prompt schema []
     = ((false, lit "DROP TABLE employees;",
         lit "Only SELECT queries are allowed"),
        [AIService.call_openai prompt schema;
         AIService.call_clean (lit "DROP TABLE employees");
         AIService.call_validate (lit "DROP TABLE employees;")]).
Proof.
  intros U gemini_ok gemini_bad failing schema prompt.
  assert (NB : ~ blank prompt).
  { intros B. inversion B; subst. discriminate. }
  split; [|split; [|split]].
  - apply (proj1 (C8_orchestration (lit "gemini") failing gemini_ok
                                   [32; 160; 8195; 10]%N schema [])).
    repeat constructor.
  - apply (proj1 (proj2 (C8_orchestration (lit "gemini") gemini_ok failing
                                          prompt schema [])) NB).
    reflexivity.
  - apply (proj1 (proj2 (proj2 (C8_orchestration (lit "gemini") failing gemini_ok
                                   prompt schema [])) NB
                   (lit "```sql SELECT * FROM employees```") eq_refl)
             (lit "SQL query is valid")).
    reflexivity.
  - apply (proj2 (proj2 (proj2 (C8_orchestration (lit "openai") gemini_bad failing
                                   prompt schema [])) NB
                   (lit "DROP TABLE employees") eq_refl)
             (lit "Only SELECT queries are allowed")).
    reflexivity.
Defined.

(** * Scenarios *)

Example scenario_fenced :
  let U := CPython.tables in
  AIService.clean_sql_response (lit "```sql SELECT * FROM employees```")
  = lit "SELECT * FROM employees;"
  /\ validate (lit "SELECT * FROM employees;") STRICT_READ_ONLY
     = Valid (lit "SELECT * FROM employees;").
Proof. intros U. split; reflexivity. Qed.

Example scenario_plain_statement :
  AIService.clean_sql_response (lit "SELECT name, salary FROM employees WHERE age > 30;")
  = lit "SELECT name, salary FROM employees WHERE age > 30;".
Proof. reflexivity. Qed.

Example scenario_extraction :
  AIService.clean_sql_response
    (lit "Sure! Here is the query: select a from t; It lists a. SELECT b;")
  = lit "select a from t;".
Proof. reflexivity. Qed.

Example scenario_manual_update :
  let U := CPython.tables in
  validate (lit "UPDATE employees SET salary = 1 WHERE id = 1;")
           RESTRICTED_MUTATION
  = Valid (lit "UPDATE employees SET salary = 1 WHERE id = 1;").
Proof. reflexivity. Qed.

Example scenario_manual_drop :
  let U := CPython.tables in
  validate (lit "DROP TABLE employees;") RESTRICTED_MUTATION
  = Invalid (keyword_reason RESTRICTED_MUTATION (lit "DROP")).
Proof. reflexivity. Qed.

Example scenario_identifier_with_keyword :
  let U := CPython.tables in
  validate (lit "SELECT created_at, dropped FROM updates;") STRICT_READ_ONLY
  = Valid (lit "SELECT created_at, dropped FROM updates;").
Proof. reflexivity. Qed.

(** The statement pattern: one blank before a lone terminator is not
    enough for [\s+.+?;], two are. *)
Example select_stmt_one_blank : Re.select_stmt (lit "SELECT ;") = None.
Proof. reflexivity. Qed.

Example select_stmt_two_blanks : Re.select_stmt (lit "SELECT  ;") = Some 9.
Proof. reflexivity. Qed.

Example select_stmt_lazy :
  Re.search Re.select_stmt (lit "x select 1; select 2;") = Some (lit "select 1;").
Proof. reflexivity. Qed.

(** Characters outside ASCII.  A letter with an accent is a word
    character, so no word begins between it and DROP; the dotless i is no
    ASCII letter, and its upper case is I; the no-break space is white
    space for [strip()] and for [\s]; [re.IGNORECASE] takes the dotless i
    for an i. *)
Example scenario_accented_letter :
  let U := CPython.tables in
  let s := lit "SELECT * FROM t WHERE " ++ [233%N] ++ lit "DROP = 1;" in
  validate s STRICT_READ_ONLY = Valid s.
Proof. reflexivity. Qed.

Example scenario_dotless_i :
  let U := CPython.tables in
  let s := lit "SELECT " ++ [305%N] ++ lit "nsert; x;" in
  validate s STRICT_READ_ONLY
  = Invalid (keyword_reason STRICT_READ_ONLY (lit "INSERT")).
Proof. reflexivity. Qed.

Example scenario_no_break_space :
  let U := CPython.tables in
  let s := [160%N] ++ lit "SELECT 1;" in
  validate s STRICT_READ_ONLY = Valid s
  /\ validate (lit "SELECT 1;" ++ [160%N]) RESTRICTED_MUTATION
     = Valid (lit "SELECT 1;")
  /\ AIService.clean_sql_response [160%N] = []
  /\ AIService.clean_sql_response (lit "SELECT" ++ [160%N] ++ lit "1; SELECT 2;")
     = lit "SELECT" ++ [160%N] ++ lit "1;".
Proof. intros U s. repeat split; reflexivity. Qed.

Example scenario_prefix_dotless_i :
  AIService.remove_prefixes
    (lit "SELECT 'The SQL query " ++ [305%N] ++ lit "s:' FROM t;")
  = lit "SELECT '' FROM t;".
Proof. reflexivity. Qed.

(** * Further properties of the code *)

Section Accepting.

Context {U : Unicode}.

(** ** The strict validator: what it accepts *)

Lemma validate_sql_accepts (s : str) :
  fst (AIService.validate_sql s) = true <->
  Py.truthy s = true
  /\ Py.startswith (Py.upper s) (lit "ERROR:") = false
  /\ Py.startswith (Py.strip (Py.upper s)) (lit "SELECT") = true
  /\ AIService.first_keyword AIService.FORBIDDEN_KEYWORDS (Py.upper s) = None
  /\ (1 <? Py.count (chr ";") s) = false
  /\ Py.contains (lit "--") s || Py.contains (lit "/*") s = false.
Proof.
  unfold AIService.validate_sql.
  destruct (Py.truthy s); cbn [negb];
    [|split; [discriminate | intros (H & _); discriminate H]].
  destruct (Py.startswith (Py.upper s) (lit "ERROR:"));
    [split; [discriminate | intros (_ & H & _); discriminate H]|].
  destruct (Py.startswith (Py.strip (Py.upper s)) (lit "SELECT")); cbn [negb];
    [|split; [discriminate | intros (_ & _ & H & _); discriminate H]].
  destruct (AIService.first_keyword _ _);
    [split; [discriminate | intros (_ & _ & _ & H & _); discriminate H]|].
  destruct (1 <? Py.count (chr ";") s);
    [split; [discriminate | intros (_ & _ & _ & _ & H & _); discriminate H]|].
  destruct (Py.contains (lit "--") s || Py.contains (lit "/*") s);
    [split; [discriminate | intros (_ & _ & _ & _ & _ & H); discriminate H]|].
  now repeat split.
Qed.

Lemma validate_sql_accepts_message (s : str) :
  fst (AIService.validate_sql s) = true ->
  AIService.validate_sql s = (true, lit "SQL query is valid").
Proof.
  intros H. pose proof (proj1 (validate_sql_accepts s) H)
    as (T & G & SE & E & C & K).
  unfold AIService.validate_sql. now rewrite T, G, SE, E, C, K.
Qed.

Lemma accepts_acceptable (s : str) :
  fst (AIService.validate_sql s) = true <-> acceptable s.
Proof.
  rewrite validate_sql_accepts. unfold acceptable. split.
  - intros (T & G & SE & E & C & K). split; [|split; [|split]].
    + now apply select_guard_iff.
    + exact (scan_no_keyword STRICT_READ_ONLY s E).
    + apply Nat.ltb_ge in C. lia.
    + intros H. apply has_comment_iff in H. congruence.
  - intros (SE & N & C & K). split; [|split; [|split; [|split; [|split]]]].
    + now apply leading_select_truthy.
    + destruct (Py.startswith (Py.upper s) (lit "ERROR:")) eqn:G;
        [|reflexivity].
      apply error_guard_iff in G. now apply select_not_error in SE.
    + now apply select_guard_iff.
    + exact (no_keyword_scan STRICT_READ_ONLY s N).
    + apply Nat.ltb_ge. lia.
    + destruct (Py.contains (lit "--") s || Py.contains (lit "/*") s) eqn:K';
        [|reflexivity].
      apply has_comment_iff in K'. contradiction.
Qed.

(** X1.  The strict validator accepts a candidate exactly when its text
    begins, white space skipped, with SELECT in any letter case, no
    forbidden keyword is a whole word of it, it has at most one semicolon
    and no comment marker; the message is then the fixed one.  The guard
    on ERROR: changes reasons only, never the verdict. *)
Theorem X1_strict_accepts_iff (s : str) :
  (fst (AIService.validate_sql s) = true <-> acceptable s)
  /\ (acceptable s ->
      AIService.validate_sql s = (true, lit "SQL query is valid")).
Proof.
  split; [apply accepts_acceptable|].
  intros H. apply validate_sql_accepts_message. now apply accepts_acceptable.
Qed.

(** ** The checks of the manual handler: what they let through *)


Lemma dangerous_forbidden kw :
  In kw App.dangerous_keywords -> In kw AIService.FORBIDDEN_KEYWORDS.
Proof. simpl. intuition. Qed.

(** X5.  The manual checks are no stricter than the strict validator:
    a text whose trimmed form [validate_sql] accepts (what the handler for
    raw queries asks) is handed to execution, trimmed, by the manual
    handler. *)
Theorem X5_strict_within_manual (s : str) :
  fst (AIService.validate_sql (Py.strip s)) = true ->
  App.execute_manual_query s = App.Execute (Py.strip s).
Proof.
  intros H. apply accepts_acceptable in H. destruct H as (SE & N & C & _).
  apply manual_executes_when.
  - intros B. apply leading_select_truthy in SE.
    rewrite (strip_blank s B) in SE. discriminate SE.
  - intros kw Hin. apply (N kw). now apply dangerous_forbidden.
  - now rewrite <- (count_strip (chr ";") s eq_refl).
Qed.

(** ** What [generate_sql] accepts *)

(** [generate_sql] in one expression. *)
Lemma generate_sql_eq (provider : str)
    (_call_openai _call_gemini : str -> str -> bool * str)
    (prompt schema_context : str) (log : list AIService.call) :
  AIService.generate_sql provider _call_openai _call_gemini
                         prompt schema_context log =
  if negb (Py.truthy prompt) || negb (Py.truthy (Py.strip prompt))
  then ((false, [], lit "Empty prompt provided"), log)
  else
    let (success, result) :=
      adapter provider _call_openai _call_gemini prompt schema_context in
    let called := adapter_call provider prompt schema_context in
    if success then
      let sql := AIService.clean_sql_response result in
      let calls := log ++ [called; AIService.call_clean result;
                           AIService.call_validate sql] in
      let (is_valid, validation_message) := AIService.validate_sql sql in
      if is_valid
      then ((true, sql, lit "SQL generated and validated successfully"), calls)
      else ((false, sql, validation_message), calls)
    else ((false, [], result), log ++ [called]).
Proof.
  unfold AIService.generate_sql, adapter, adapter_call.
  destruct (negb (Py.truthy prompt) || negb (Py.truthy (Py.strip prompt)));
    [reflexivity|].
  unfold AIService.bind, AIService.invoke, AIService.ret.
  destruct (Py.eqb provider (lit "openai")).
  - destruct (_call_openai prompt schema_context) as [[|] result];
      cbn [negb]; [|reflexivity].
    destruct (AIService.validate_sql _) as [[|] m]; cbn [negb];
      now rewrite <- !app_assoc.
  - destruct (_call_gemini prompt schema_context) as [[|] result];
      cbn [negb]; [|reflexivity].
    destruct (AIService.validate_sql _) as [[|] m]; cbn [negb];
      now rewrite <- !app_assoc.
Qed.



End Accepting.

Lemma X1_witness :
  let U := CPython.tables in
  let s := [160%N] ++ lit " select name, " ++ [233%N]
           ++ lit "drop from employees where age > 30;" in
  acceptable s /\ AIService.validate_sql s = (true, lit "SQL query is valid").
Proof.
  intros U s.
  assert (A : acceptable s) by now apply (proj1 (proj1 (X1_strict_accepts_iff s))).
  exact (conj A (proj2 (X1_strict_accepts_iff s) A)).
Defined.


Lemma X5_witness :
  let U := CPython.tables in
  let s := lit "SELECT * FROM employees; " ++ [160%N] in
  fst (AIService.validate_sql (Py.strip s)) = true /\
  App.execute_manual_query s = App.Execute (lit "SELECT * FROM employees;").
Proof.
  intros U s.
  assert (H : fst (AIService.validate_sql (Py.strip s)) = true) by reflexivity.
  exact (conj H (X5_strict_within_manual s H)).
Defined.


(** ** The sanitizer: the shape of what it returns *)

Lemma clean_nil_iff (x : str) :
  AIService.clean_sql_response x = [] <-> AIService.unwrap x = [].
Proof.
  split.
  - intros E. destruct (clean_cases x) as [_ G].
    destruct (Re.search Re.select_stmt (AIService.unwrap x)) as [g|] eqn:S.
    + destruct (G g eq_refl) as [Eg _].
      destruct (search_select_some _ g S) as (_ & _ & B).
      destruct (begins_select_head g B) as (c & r & Hg & _).
      congruence.
    + revert E. unfold AIService.clean_sql_response. rewrite S.
      destruct (AIService.unwrap x) as [|c t]; [reflexivity|].
      cbn [Py.truthy andb].
      destruct (negb (Py.endswith_char (c :: t) (chr ";"))); discriminate.
  - intros E. unfold AIService.clean_sql_response. now rewrite E.
Qed.

(** X6.  What the sanitizer returns is empty exactly when nothing is left
    of the text once fences and prefixes are removed and it is trimmed;
    otherwise it ends with the terminator and carries no white space at
    either end. *)
Theorem X6_clean_shape (x : str) :
  let y := AIService.clean_sql_response x in
  (y = [] <-> AIService.unwrap x = [])
  /\ (y <> [] -> Py.endswith_char y (chr ";") = true /\ Py.strip y = y).
Proof.
  intros y. split; [apply clean_nil_iff|].
  intros NE. destruct (clean_cases x) as [C _]. fold y in C.
  split; [|now apply cleaned_strip].
  destruct C as [E | [_ E]]; [contradiction | exact E].
Qed.

Lemma X6_witness :
  let x := [160%N] ++ lit " The rows you asked for " ++ [8195%N] in
  let y := AIService.clean_sql_response x in
  y <> [] /\ Py.endswith_char y (chr ";") = true /\ Py.strip y = y.
Proof.
  intros x y. assert (NE : y <> []) by (vm_compute; discriminate).
  exact (conj NE (proj2 (X6_clean_shape x) NE)).
Defined.

(** X7.  When the statement pattern matches somewhere in the text that is
    left once fences and prefixes are removed and it is trimmed, the
    sanitizer returns the match: a part of that text that begins with
    SELECT (up to the letter case that the pattern ignores) and ends with
    the terminator, and before which no match of the pattern begins. *)
Theorem X7_extracted_statement (x g : str) :
  Re.search Re.select_stmt (AIService.unwrap x) = Some g ->
  AIService.clean_sql_response x = g
  /\ begins_same_ci (lit "SELECT") g
  /\ Py.endswith_char g (chr ";") = true
  /\ exists pre post,
       AIService.unwrap x = pre ++ g ++ post
       /\ forall a b, pre = a ++ b -> b <> [] ->
                      Re.select_stmt (b ++ g ++ post) = None.
Proof.
  intros S. destruct (clean_cases x) as [_ G].
  destruct (G g S) as [E _].
  destruct (search_select_some _ g S) as (_ & Eg & B).
  destruct (search_select_leftmost _ g S) as (pre & post & Ex & _ & L).
  split; [exact E|]. split; [exact B|]. split; [exact Eg|].
  now exists pre, post.
Qed.

Lemma X7_witness :
  let x := lit "Sure! Here is the query: select" ++ [160%N]
           ++ lit "a from t; It lists a. SELECT b;" in
  let g := lit "select" ++ [160%N] ++ lit "a from t;" in
  Re.search Re.select_stmt (AIService.unwrap x) = Some g
  /\ AIService.clean_sql_response x = g
  /\ begins_same_ci (lit "SELECT") g.
Proof.
  intros x g.
  assert (S : Re.search Re.select_stmt (AIService.unwrap x) = Some g)
    by reflexivity.
  destruct (X7_extracted_statement x _ S) as (E & B & _).
  exact (conj S (conj E B)).
Defined.

(** ** The sanitizer on a plain statement *)

Lemma spaces_blank_app (sp : str) c (t : str) :
  blank sp -> Py.isspace c = false -> Re.spaces (sp ++ c :: t) = length sp.
Proof.
  intros B Hc. induction B as [|a sp Ha _ IH]; simpl.
  - now rewrite Hc.
  - now rewrite Ha, IH.
Qed.

Lemma index_absent_app c (a b : str) :
  Py.count c a = 0 -> Re.index c (a ++ c :: b) = Some (length a).
Proof.
  induction a as [|x a IH]; simpl.
  - now rewrite N.eqb_refl.
  - destruct (N.eqb x c); [discriminate|]. intros H. now rewrite (IH H).
Qed.

Lemma count_cons_zero c x (a : str) :
  Py.count c (x :: a) = 0 -> Py.count c a = 0.
Proof. simpl. lia. Qed.

Lemma same_ci_length (p w : str) : same_ci p w -> length w = length p.
Proof.
  intros H. apply (f_equal (@length char)) in H. now rewrite !length_map in H.
Qed.

Lemma plain_select_matches (y : str) :
  plain_select y -> Re.select_stmt y = Some (length y).
Proof.
  intros (w & sp & c & body & -> & Hw & Hsp & B & Hc & C).
  pose proof (same_ci_length _ _ Hw) as Lw. change (length (lit "SELECT")) with 6 in Lw.
  rewrite select_stmt_unfold.
  assert (L : Re.lit_at true (lit "SELECT") (w ++ sp ++ (c :: body) ++ [chr ";"])
              = true).
  { apply lit_at_true_iff. now exists w, (sp ++ (c :: body) ++ [chr ";"]). }
  rewrite L.
  assert (Sk : skipn 6 (w ++ sp ++ (c :: body) ++ [chr ";"])
               = sp ++ c :: body ++ [chr ";"]).
  { rewrite <- Lw, skipn_app, Nat.sub_diag, skipn_all. reflexivity. }
  rewrite Sk, (spaces_blank_app sp c _ B Hc).
  destruct sp as [|a sp]; [contradiction|]. cbn [length].
  change (S (length sp)) with (length (a :: sp)).
  rewrite skipn_app, Nat.sub_diag, skipn_all. cbn [skipn app].
  rewrite (index_absent_app (chr ";") body [] (count_cons_zero _ _ _ C)).
  f_equal. repeat (rewrite length_app || cbn [length]). lia.
Qed.

Lemma plain_select_cleaned (y : str) : plain_select y -> cleaned y.
Proof.
  intros (w & sp & c & body & -> & Hw & Hsp & B & Hc & C). right. split.
  - destruct (same_ci_head (chr "S") (lit "ELECT") w eq_refl Hw)
      as (x & r & -> & Hx).
    now exists x, (r ++ sp ++ (c :: body) ++ [chr ";"]).
  - rewrite !app_assoc. apply endswith_snoc.
Qed.

(** X8.  A plain statement passes through the sanitizer unchanged: SELECT
    in any letter case, white space, a body without terminator that begins
    with a character other than white space, and the terminator, when the
    text holds no fence marker and none of the listed prefixes. *)
Theorem X8_plain_statement_unchanged (y : str) :
  plain_select y ->
  ~ occurs (lit "```") y ->
  (forall p, In p AIService.prefixes_to_remove -> ~ occurs_ci p y) ->
  AIService.clean_sql_response y = y.
Proof.
  intros P NF NP. pose proof (plain_select_cleaned y P) as C.
  assert (E : AIService.unwrap y = y).
  { unfold AIService.unwrap. rewrite (remove_fences_absent y NF).
    change (AIService.remove_prefixes y)
      with (remove_all AIService.prefixes_to_remove y).
    rewrite (remove_all_absent _ y NP). now apply cleaned_strip. }
  unfold AIService.clean_sql_response. rewrite E.
  rewrite (search_at_start _ _ _ (plain_select_matches y P)), firstn_all.
  now apply cleaned_final.
Qed.

Lemma X8_witness :
  let y := lit "Select" ++ [160%N] ++ lit "name, salary" ++ [10%N]
           ++ lit "FROM employees WHERE age > 30;" in
  plain_select y /\ AIService.clean_sql_response y = y.
Proof.
  intros y.
  assert (P : plain_select y).
  { exists (lit "Select"), [160%N], (chr "n"),
      (lit "ame, salary" ++ [10%N] ++ lit "FROM employees WHERE age > 30").
    split; [reflexivity|]. split; [reflexivity|]. split; [discriminate|].
    split; [repeat constructor|]. split; reflexivity. }
  assert (NF : ~ occurs (lit "```") y) by now apply not_occurs_run.
  assert (NP : forall p, In p AIService.prefixes_to_remove -> ~ occurs_ci p y).
  { apply Forall_forall. repeat constructor; now apply not_occurs_ci_run. }
  exact (conj P (X8_plain_statement_unchanged y P NF NP)).
Defined.

(** ** The removal of the prefixes: what it leaves as it is *)

(** X19.  The loop that removes the explanatory prefixes leaves a text as
    it is exactly when none of the listed prefixes occurs anywhere in it,
    up to the letter case that [re.IGNORECASE] ignores; a text in which one
    occurs comes out strictly shorter. *)
Theorem X19_prefixes_fixed_points (s : str) :
  (AIService.remove_prefixes s = s <->
   forall p, In p AIService.prefixes_to_remove -> ~ occurs_ci p s)
  /\ ((exists p, In p AIService.prefixes_to_remove /\ occurs_ci p s) ->
      length (AIService.remove_prefixes s) < length s).
Proof.
  assert (F : Forall (fun p : str => p <> []) AIService.prefixes_to_remove)
    by (repeat constructor; discriminate).
  change (AIService.remove_prefixes s)
    with (remove_all AIService.prefixes_to_remove s).
  assert (A : remove_all AIService.prefixes_to_remove s = s <->
              forall p, In p AIService.prefixes_to_remove -> ~ occurs_ci p s).
  { split.
    - intros E. apply remove_all_fixed; [exact F | now rewrite E].
    - apply remove_all_absent. }
  split; [exact A|].
  intros (p & Hin & O).
  pose proof (remove_all_length AIService.prefixes_to_remove s) as L.
  destruct (Nat.eq_dec (length (remove_all AIService.prefixes_to_remove s))
                       (length s)) as [E|E]; [|lia].
  exfalso. exact (remove_all_fixed _ s F E p Hin O).
Qed.

Lemma X19_witness :
  let s := lit "The answer. the SQL QUERY " ++ [305%N] ++ lit "s: select 1;" in
  (exists p, In p AIService.prefixes_to_remove /\ occurs_ci p s) /\
  length (AIService.remove_prefixes s) < length s.
Proof.
  intros s.
  assert (O : exists p, In p AIService.prefixes_to_remove /\ occurs_ci p s).
  { exists (lit "The SQL query is:"). split; [simpl; tauto|].
    exists (lit "The answer. "), (lit "the SQL QUERY " ++ [305%N] ++ lit "s:"),
      (lit " select 1;").
    split; reflexivity. }
  exact (conj O (proj2 (X19_prefixes_fixed_points s) O)).
Defined.

(** * The handlers *)


Lemma executed_ai (calls : list AIService.call) :
  Routes.executed (map Routes.ai calls) = [].
Proof. induction calls as [|c calls IH]; [reflexivity | exact IH]. Qed.

Section Handlers.

Context {U : Unicode}.

Variable row : Type.
Variable provider : str.
Variable _call_openai _call_gemini : str -> str -> bool * str.
Variable schema_context : str.
Variable execute_sql : str -> (list row * str) + str.

Local Abbreviation process_text :=
  (Routes.process_text row provider _call_openai _call_gemini
                       schema_context execute_sql).
Local Abbreviation process_prompt :=
  (Routes.process_prompt row provider _call_openai _call_gemini
                         schema_context execute_sql).
Local Abbreviation execute_raw_query := (Routes.execute_raw_query row execute_sql).

(** With a prompt that is not empty the handler first asks for the
    schema. *)
Lemma process_text_asks_schema (prompt : str) :
  Py.truthy prompt = true ->
  exists calls,
    snd (process_text prompt) = Routes.get_schema_context_call :: calls.
Proof.
  intros T. unfold Routes.process_text. rewrite T. cbn [negb].
  destruct (negb (Py.truthy schema_context) || _); [now exists []|].
  destruct (AIService.generate_sql _ _ _ _ _ _) as [[[ok sql] msg] calls].
  destruct (negb ok); [now eexists|].
  destruct (execute_sql sql) as [[results m]|m]; now eexists.
Qed.

(** X10.  [process_prompt] calls none of its collaborators (neither the
    schema, nor a provider, nor the database) exactly when the request
    carries no data, no prompt or a blank prompt, which it refuses with
    status 400, or when reading the request raises (no JSON, a JSON value
    that is no object, a prompt that is no string, null among them), which
    it answers with status 500 and the text of the exception. *)
Theorem X10_prompt_refused (r : Routes.request) :
  let refused :=
    r = Routes.no_data
    \/ r = Routes.data_with Routes.missing
    \/ exists p, r = Routes.data_with (Routes.text p) /\ blank p in
  let raised e :=
    r = Routes.unreadable e
    \/ r = Routes.not_an_object e
    \/ exists truthy, r = Routes.data_with (Routes.other truthy e) in
  (snd (process_prompt r) = [] <-> refused \/ exists e, raised e)
  /\ (refused -> Routes.status row (fst (process_prompt r)) = 400)
  /\ (forall e, raised e ->
        fst (process_prompt r)
        = Routes.failure row 500 (lit "Server error: " ++ e) (Routes.JNull row)).
Proof.
  intros refused raised. split; [|split].
  - split.
    + destruct r as [e| |e|[|p|b e]]; intros H.
      * right. exists e. now left.
      * left. now left.
      * right. exists e. right. now left.
      * left. right. now left.
      * left. right. right. exists p. split; [reflexivity|].
        apply strip_nil_blank. destruct (Py.strip p) as [|c t] eqn:E;
          [reflexivity|].
        cbn [Routes.process_prompt] in H. rewrite E in H.
        destruct (process_text_asks_schema (c :: t) eq_refl) as (calls & Hc).
        rewrite Hc in H. discriminate H.
      * right. exists e. right. right. now exists b.
    + intros [[-> | [-> | (p & -> & B)]] | (e & [-> | [-> | (b & ->)]])];
        try reflexivity.
      cbn [Routes.process_prompt]. now rewrite (strip_blank p B).
  - intros [-> | [-> | (p & -> & B)]]; try reflexivity.
    cbn [Routes.process_prompt]. now rewrite (strip_blank p B).
  - intros e [-> | [-> | (b & ->)]]; reflexivity.
Qed.

(** X11.  When the description of the schema is empty or holds the text
    "Unable to retrieve", [process_prompt] answers a prompt that is not
    blank with status 500, and the only call it has made is the one for
    the schema: no provider is called and nothing is executed. *)
Theorem X11_schema_unavailable (p : str) :
  ~ blank p ->
  schema_context = [] \/ occurs (lit "Unable to retrieve") schema_context ->
  process_prompt (Routes.data_with (Routes.text p))
  = (Routes.failure row 500
       (lit "Failed to retrieve database schema. Please check database connection.")
       (Routes.JNull row),
     [Routes.get_schema_context_call]).
Proof.
  intros NB H. unfold Routes.process_prompt, Routes.process_text.
  destruct (truthy_strip_not_blank p NB) as [_ T]. rewrite T. cbn [negb].
  assert (G : negb (Py.truthy schema_context)
              || Py.contains (lit "Unable to retrieve") schema_context = true).
  { destruct H as [-> | O]; [reflexivity|].
    apply contains_iff in O. rewrite O. apply orb_true_r. }
  now rewrite G.
Qed.


(** X13.  [execute_raw_query] executes a statement exactly when the
    request carries a text under [sql] whose trimmed form the strict
    validator accepts, and what it executes is that trimmed text; it
    executes nothing otherwise, calls no provider, and answers with status
    200 only after such an execution. *)
Theorem X13_raw_executes_validated (r : Routes.request) :
  Routes.executed (snd (execute_raw_query r))
  = match r with
    | Routes.data_with (Routes.text sql) =>
        if fst (AIService.validate_sql (Py.strip sql)) then [Py.strip sql]
        else []
    | _ => []
    end
  /\ Routes.provider_calls (snd (execute_raw_query r)) = 0
  /\ (Routes.status row (fst (execute_raw_query r)) = 200 ->
      exists sql,
        r = Routes.data_with (Routes.text sql)
        /\ acceptable (Py.strip sql)
        /\ Routes.executed (snd (execute_raw_query r)) = [Py.strip sql]).
Proof.
  destruct r as [e| |e|[|sql|[|] e]]; cbn [Routes.execute_raw_query];
    try (split; [reflexivity|]; split; [reflexivity | discriminate]).
  destruct sql as [|c sql].
  { split; [reflexivity|]. split; [reflexivity | discriminate]. }
  cbn [Py.truthy negb]. unfold Routes.execute_raw_text.
  destruct (AIService.validate_sql (Py.strip (c :: sql))) as [[|] m] eqn:V;
    cbn [negb fst].
  - assert (A : acceptable (Py.strip (c :: sql))).
    { apply accepts_acceptable. now rewrite V. }
    destruct (execute_sql (Py.strip (c :: sql))) as [[results msg]|msg];
      (split; [reflexivity|]); (split; [reflexivity|]);
      [intros _; exists (c :: sql); exact (conj eq_refl (conj A eq_refl))
      | discriminate].
  - split; [reflexivity|]. split; [reflexivity | discriminate].
Qed.

(** X18.  When the database shows no table, the description of the schema
    is the text that [process_prompt] takes for a failure: it answers a
    prompt that is not blank with status 500 and calls no provider. *)
Theorem X18_empty_schema_refused (p : str) :
  ~ blank p ->
  let handled :=
    Routes.process_prompt row provider _call_openai _call_gemini
      (Db.get_schema_description []) execute_sql
      (Routes.data_with (Routes.text p)) in
  Routes.status row (fst handled) = 500
  /\ Routes.provider_calls (snd handled) = 0
  /\ Routes.executed (snd handled) = [].
Proof.
  intros NB handled. unfold handled, Routes.process_prompt, Routes.process_text.
  destruct (truthy_strip_not_blank p NB) as [_ T]. rewrite T.
  now repeat split.
Qed.

End Handlers.

Lemma X10_witness :
  let U := CPython.tables in
  let answer (_ _ : str) := (true, lit "SELECT 1;") in
  let run (q : str) : (list nat * str) + str := inl ([1; 2], lit "ok") in
  let handle :=
    Routes.process_prompt nat (lit "gemini") answer answer
      (lit "Database Schema:") run in
  let blank_prompt := Routes.data_with (Routes.text [32; 160]%N) in
  let no_strip := lit "'NoneType' object has no attribute 'strip'" in
  let null_prompt := Routes.data_with (Routes.other false no_strip) in
  (Routes.status nat (fst (handle blank_prompt)) = 400
   /\ snd (handle blank_prompt) = [])
  /\ (fst (handle null_prompt)
      = Routes.failure nat 500 (lit "Server error: " ++ no_strip)
                       (Routes.JNull nat)
      /\ snd (handle null_prompt) = []).
Proof.
  intros U answer run handle blank_prompt no_strip null_prompt.
  assert (B : blank [32; 160]%N) by (repeat constructor).
  pose proof (X10_prompt_refused nat (lit "gemini") answer answer
                (lit "Database Schema:") run blank_prompt) as (H1 & H2 & _).
  pose proof (X10_prompt_refused nat (lit "gemini") answer answer
                (lit "Database Schema:") run null_prompt) as (H3 & _ & H4).
  split; split.
  - apply H2. right. right. eexists. split; [reflexivity | exact B].
  - apply (proj2 H1). left. right. right. eexists. split; [reflexivity | exact B].
  - apply H4. right. right. now exists false.
  - apply (proj2 H3). right. exists no_strip. right. right. now exists false.
Defined.

Lemma X11_witness :
  let U := CPython.tables in
  let answer (_ _ : str) := (true, lit "SELECT 1;") in
  let run (q : str) : (list nat * str) + str := inl ([1; 2], lit "ok") in
  let p := lit "Show all employees" in
  ~ blank p /\
  Routes.process_prompt nat (lit "gemini") answer answer
    (lit "Unable to retrieve database schema.") run
    (Routes.data_with (Routes.text p))
  = (Routes.failure nat 500
       (lit "Failed to retrieve database schema. Please check database connection.")
       (Routes.JNull nat),
     [Routes.get_schema_context_call]).
Proof.
  intros U answer run p.
  assert (NB : ~ blank p).
  { intros B. inversion B as [|? ? Hu _]. discriminate Hu. }
  split; [exact NB|].
  apply (X11_schema_unavailable nat (lit "gemini") answer answer
           (lit "Unable to retrieve database schema.") run p NB).
  right. now exists [], (lit " database schema.").
Defined.


Lemma X13_witness :
  let U := CPython.tables in
  let run (q : str) : (list nat * str) + str := inl ([1; 2], lit "ok") in
  let sent := lit "  select 1;" ++ [160%N] in
  let handled :=
    Routes.execute_raw_query nat run (Routes.data_with (Routes.text sent)) in
  Routes.status nat (fst handled) = 200
  /\ Routes.executed (snd handled) = [lit "select 1;"]
  /\ Routes.provider_calls (snd handled) = 0.
Proof.
  intros U run sent handled.
  assert (S : Routes.status nat (fst handled) = 200) by reflexivity.
  pose proof (X13_raw_executes_validated nat run
                (Routes.data_with (Routes.text sent))) as (H1 & H2 & _).
  exact (conj S (conj H1 H2)).
Defined.

Lemma X18_witness :
  let U := CPython.tables in
  let request (_ _ : str) := (true, lit "SELECT 1;") in
  let run (q : str) : (list nat * str) + str := inl ([1], lit "ok") in
  let handled :=
    Routes.process_prompt nat (lit "gemini") request request
      (Db.get_schema_description []) run
      (Routes.data_with (Routes.text (lit "Show all employees"))) in
  Routes.status nat (fst handled) = 500
  /\ Routes.provider_calls (snd handled) = 0
  /\ Routes.executed (snd handled) = [].
Proof.
  intros U request run.
  apply (X18_empty_schema_refused nat (lit "gemini") request request run
           (lit "Show all employees")).
  intros B. inversion B as [|? ? Hu _]. discriminate Hu.
Defined.

(** * The API keys *)

Lemma py_eqb_eq (a b : str) : Py.eqb a b = true <-> a = b.
Proof.
  revert b. induction a as [|x a IH]; intros [|y b]; simpl;
    try (split; [discriminate | discriminate]); [tauto|].
  rewrite andb_true_iff, N.eqb_eq, IH.
  split; [intros [-> ->]; reflexivity | intros H; injection H as -> ->; tauto].
Qed.

Lemma py_eqb_neq (a b : str) : Py.eqb a b = false <-> a <> b.
Proof.
  rewrite <- py_eqb_eq. destruct (Py.eqb a b); split; congruence.
Qed.

(** X14.  With a key that is empty or still the placeholder, the adapter
    that [generate_sql] selects answers that the key is not configured,
    whatever a request would have returned; [generate_sql] passes this
    answer on and calls neither the sanitizer nor the validator.  The
    Gemini adapter is the one selected for every provider name other than
    openai. *)
Theorem X14_key_not_configured {U : Unicode}
    (provider openai_key gemini_key : str)
    (openai_request gemini_request : str -> str -> bool * str)
    (prompt schema_context : str) :
  ~ blank prompt ->
  (provider = lit "openai" ->
   openai_key = [] \/ openai_key = Adapters.openai_placeholder ->
   Adapters.generate_sql provider openai_key gemini_key
                         openai_request gemini_request prompt schema_context
   = ((false, [], lit "OpenAI API key not configured"),
      [AIService.call_openai prompt schema_context]))
  /\ (provider <> lit "openai" ->
      gemini_key = [] \/ gemini_key = Adapters.gemini_placeholder ->
      Adapters.generate_sql provider openai_key gemini_key
                            openai_request gemini_request prompt schema_context
      = ((false, [],
          lit "Gemini API key not configured. Please add your GEMINI_API_KEY to the .env file."),
         [AIService.call_gemini prompt schema_context])).
Proof.
  intros NB. unfold Adapters.generate_sql. rewrite generate_sql_eq.
  destruct (negb (Py.truthy prompt) || negb (Py.truthy (Py.strip prompt)))
    eqn:G; [apply blank_guard in G; contradiction|].
  unfold adapter, adapter_call. split.
  - intros -> K. change (Py.eqb (lit "openai") (lit "openai")) with true.
    cbv iota. unfold Adapters._call_openai.
    destruct K as [-> | ->]; reflexivity.
  - intros NP K. apply py_eqb_neq in NP. rewrite NP.
    unfold Adapters._call_gemini.
    destruct K as [-> | ->]; reflexivity.
Qed.

Lemma X14_witness :
  let U := CPython.tables in
  let request (_ _ : str) := (true, lit "SELECT 1;") in
  let prompt := lit "Show all employees" in
  Adapters.generate_sql (lit "claude") (lit "sk-live") []
                        request request prompt (lit "schema")
  = ((false, [],
      lit "Gemini API key not configured. Please add your GEMINI_API_KEY to the .env file."),
     [AIService.call_gemini prompt (lit "schema")]).
Proof.
  intros U request prompt.
  assert (NB : ~ blank prompt).
  { intros B. inversion B as [|? ? Hu _]. discriminate Hu. }
  apply (proj2 (X14_key_not_configured (lit "claude") (lit "sk-live") []
                  request request prompt (lit "schema") NB)).
  - discriminate.
  - now left.
Defined.

(** Closes a case of the analysis of [ai_configured]. *)
Ltac configured_case :=
  let H := fresh "H" in
  intros H;
  first
    [ solve [decompose [and or] H; first [congruence | discriminate]]
    | solve [left; repeat split; first [assumption | discriminate | reflexivity]]
    | solve [right; repeat split; first [assumption | discriminate | reflexivity]]
    | solve [split; congruence] ].

(** X15.  [ai_configured] of the health check is truthy exactly when the
    provider is openai or gemini and the key of that provider is neither
    empty nor the placeholder.  It is a boolean except in one case: the
    empty text, when the provider is gemini and its key is empty. *)
Theorem X15_ai_configured (provider openai_key gemini_key : str) :
  (Adapters.truthy (Adapters.ai_configured provider openai_key gemini_key) = true
   <-> (provider = lit "openai" /\ openai_key <> []
        /\ openai_key <> Adapters.openai_placeholder)
       \/ (provider = lit "gemini" /\ gemini_key <> []
           /\ gemini_key <> Adapters.gemini_placeholder))
  /\ (Adapters.ai_configured provider openai_key gemini_key = Adapters.Str []
      <-> provider = lit "gemini" /\ gemini_key = [])
  /\ (forall s, Adapters.ai_configured provider openai_key gemini_key
                = Adapters.Str s -> s = []).
Proof.
  assert (D : lit "openai" <> lit "gemini") by discriminate.
  unfold Adapters.ai_configured, Adapters.and_, Adapters.or_.
  destruct (Py.eqb provider (lit "openai")) eqn:PO.
  - apply py_eqb_eq in PO. subst provider.
    change (Py.eqb (lit "openai") (lit "gemini")) with false.
    destruct openai_key as [|a ko]; cbn [Adapters.truthy Py.truthy].
    + repeat split; try discriminate; try tauto; configured_case.
    + destruct (Py.eqb (a :: ko) Adapters.openai_placeholder) eqn:E;
        [apply py_eqb_eq in E | apply py_eqb_neq in E];
        cbn [negb Adapters.truthy];
        repeat split; try discriminate; try tauto; configured_case.
  - apply py_eqb_neq in PO. cbn [Adapters.truthy].
    destruct (Py.eqb provider (lit "gemini")) eqn:PG;
      [apply py_eqb_eq in PG | apply py_eqb_neq in PG];
      cbn [Adapters.truthy].
    + destruct gemini_key as [|b kg]; cbn [Adapters.truthy Py.truthy].
      * repeat split; try discriminate; try tauto; try congruence;
          configured_case.
      * destruct (Py.eqb (b :: kg) Adapters.gemini_placeholder) eqn:E;
          [apply py_eqb_eq in E | apply py_eqb_neq in E];
          cbn [negb Adapters.truthy];
          repeat split; try discriminate; try tauto; configured_case.
    + repeat split; try discriminate; try tauto; configured_case.
Qed.

Lemma X15_witness :
  Adapters.truthy (Adapters.ai_configured (lit "openai") (lit "sk-live") []) = true
  /\ Adapters.ai_configured (lit "gemini") (lit "sk-live") [] = Adapters.Str [].
Proof.
  split.
  - apply (proj1 (X15_ai_configured (lit "openai") (lit "sk-live") [])).
    left. repeat split; discriminate.
  - apply (proj1 (proj2 (X15_ai_configured (lit "gemini") (lit "sk-live") []))).
    now split.
Defined.

Lemma call_gemini_passes (key : str) :
  key <> [] -> key <> Adapters.gemini_placeholder ->
  forall request prompt schema_context,
    Adapters._call_gemini key request prompt schema_context
    = request prompt schema_context.
Proof.
  intros N1 N2 request prompt schema_context. unfold Adapters._call_gemini.
  apply py_eqb_neq in N2. rewrite N2.
  destruct key; [contradiction | reflexivity].
Qed.

(** X16.  For a provider name other than openai and gemini the health
    check reports the service as not configured, whatever the keys, while
    [generate_sql] does what it does for the provider gemini: with the
    Gemini key set, it sends the prompt through the Gemini request, and
    returns the detail of that request when it fails. *)
Theorem X16_unknown_provider {U : Unicode}
    (provider openai_key gemini_key : str)
    (openai_request gemini_request : str -> str -> bool * str)
    (prompt schema_context : str) :
  provider <> lit "openai" -> provider <> lit "gemini" ->
  Adapters.ai_configured provider openai_key gemini_key = Adapters.Bool false
  /\ Adapters.generate_sql provider openai_key gemini_key
                           openai_request gemini_request prompt schema_context
     = Adapters.generate_sql (lit "gemini") openai_key gemini_key
                             openai_request gemini_request prompt schema_context
  /\ (~ blank prompt ->
      gemini_key <> [] -> gemini_key <> Adapters.gemini_placeholder ->
      forall detail,
        gemini_request prompt schema_context = (false, detail) ->
        Adapters.generate_sql provider openai_key gemini_key
                              openai_request gemini_request prompt schema_context
        = ((false, [], detail), [AIService.call_gemini prompt schema_context])).
Proof.
  intros NO NG. apply py_eqb_neq in NO, NG. split; [|split].
  - unfold Adapters.ai_configured, Adapters.and_, Adapters.or_.
    now rewrite NO, NG.
  - unfold Adapters.generate_sql. rewrite !generate_sql_eq.
    unfold adapter, adapter_call. rewrite NO.
    now change (Py.eqb (lit "gemini") (lit "openai")) with false.
  - intros NB K1 K2 detail R. unfold Adapters.generate_sql.
    rewrite generate_sql_eq.
    destruct (negb (Py.truthy prompt) || negb (Py.truthy (Py.strip prompt)))
      eqn:G; [apply blank_guard in G; contradiction|].
    unfold adapter, adapter_call. rewrite NO.
    now rewrite (call_gemini_passes gemini_key K1 K2), R.
Qed.

Lemma X16_witness :
  let U := CPython.tables in
  let request (_ _ : str) := (true, lit "SELECT 1;") in
  Adapters.ai_configured (lit "claude") [] (lit "AIza-live") = Adapters.Bool false
  /\ Adapters.generate_sql (lit "claude") [] (lit "AIza-live") request request
                           (lit "Show all") (lit "schema")
     = Adapters.generate_sql (lit "gemini") [] (lit "AIza-live") request request
                             (lit "Show all") (lit "schema").
Proof.
  intros U request.
  assert (NO : lit "claude" <> lit "openai") by (vm_compute; discriminate).
  assert (NG : lit "claude" <> lit "gemini") by (vm_compute; discriminate).
  destruct (X16_unknown_provider (lit "claude") [] (lit "AIza-live")
              request request (lit "Show all") (lit "schema") NO NG)
    as (H1 & H2 & _).
  exact (conj H1 H2).
Defined.

(** * The description of the schema *)

Lemma join_concat (sep a : str) (rest : list str) :
  Db.join sep (a :: rest) = a ++ concat (map (app sep) rest).
Proof.
  revert a. induction rest as [|b rest IH]; intros a.
  - simpl. now rewrite app_nil_r.
  - change (Db.join sep (a :: b :: rest))
      with (a ++ sep ++ Db.join sep (b :: rest)).
    rewrite IH. simpl. now rewrite <- !app_assoc.
Qed.

Lemma concat_flat_map {A} (f : A -> list str) (g : str -> str) (l : list A) :
  concat (map g (flat_map f l)) = concat (map (fun x => concat (map g (f x))) l).
Proof.
  induction l as [|x l IH]; [reflexivity|].
  simpl. now rewrite map_app, concat_app, IH.
Qed.

(** X17.  The description of a schema with at least one table is the
    heading, an empty line, and then for each table in turn an empty line,
    the line with its name, the line "Columns:" and one line for each of
    its columns in turn: two blanks, a dash, the name, the type in
    brackets, and the mark of a primary key when the key is PRI, of a
    foreign key when it is MUL, none otherwise. *)
Theorem X17_description_layout (schema : Db.table_schema) :
  schema <> [] ->
  Db.get_schema_description schema
  = lit "Database Schema:" ++ Db.nl
    ++ concat
         (map (fun table : str * list Db.column =>
                 Db.nl ++ Db.nl ++ lit "Table: " ++ fst table
                 ++ Db.nl ++ lit "Columns:"
                 ++ concat
                      (map (fun col =>
                              Db.nl ++ lit "  - " ++ Db.col_name col
                              ++ lit " (" ++ Db.col_type col ++ lit ")"
                              ++ (if Py.eqb (Db.col_key col) (lit "PRI")
                                  then lit " [PRIMARY KEY]"
                                  else if Py.eqb (Db.col_key col) (lit "MUL")
                                  then lit " [FOREIGN KEY]"
                                  else []))
                           (snd table)))
              schema).
Proof.
  intros NE.
  assert (T : Db.get_schema_description schema
              = Db.join Db.nl (Db.description_parts schema)).
  { destruct schema; [contradiction | reflexivity]. }
  rewrite T. unfold Db.description_parts. cbn [app].
  rewrite join_concat, concat_flat_map, <- app_assoc. do 3 f_equal.
  apply map_ext. intros [name cols]. cbn [fst snd Db.table_parts app map concat].
  rewrite map_map, <- !app_assoc. repeat (apply (f_equal (app _))).
  induction cols as [|col cols IH]; [reflexivity|].
  cbn [map concat]. rewrite IH. apply (f_equal (fun t => t ++ _)).
  apply (f_equal (app _)). unfold Db.col_desc. cbv zeta.
  destruct (Py.eqb (Db.col_key col) (lit "PRI")).
  - now rewrite <- !app_assoc.
  - destruct (Py.eqb (Db.col_key col) (lit "MUL")).
    + now rewrite <- !app_assoc.
    + now rewrite app_nil_r.
Qed.

Lemma X17_witness :
  let column name type key :=
    {| Db.col_name := lit name; Db.col_type := lit type;
       Db.col_nullable := false; Db.col_key := key;
       Db.col_default := None |} in
  let schema :=
    [(lit "departments", [column "id" "int" (lit "PRI")]);
     (lit "employees", [column "id" "int" (lit "PRI");
                        column "dept_id" "int" (lit "MUL");
                        column "name" "varchar(100)" []])]%string in
  schema <> [] /\
  Db.get_schema_description schema
  = lit "Database Schema:" ++ Db.nl ++ Db.nl
    ++ Db.nl ++ lit "Table: departments" ++ Db.nl
    ++ lit "Columns:" ++ Db.nl
    ++ lit "  - id (int) [PRIMARY KEY]" ++ Db.nl
    ++ Db.nl ++ lit "Table: employees" ++ Db.nl
    ++ lit "Columns:" ++ Db.nl
    ++ lit "  - id (int) [PRIMARY KEY]" ++ Db.nl
    ++ lit "  - dept_id (int) [FOREIGN KEY]" ++ Db.nl
    ++ lit "  - name (varchar(100))".
Proof.
  intros column schema.
  assert (NE : schema <> []) by discriminate.
  split; [exact NE|].
  rewrite (X17_description_layout schema NE). reflexivity.
Defined.
